(** * UNF training loop: a shallow embedding of [training/learner.py]

    The development follows [Trainer] of [src/UNF/training/learner.py]:
    Python values, floats, tensors of token ids, the external collaborators
    (model, loss, metric, optimizer, scheduler), the metric tracker and the
    checkpointer, then the methods of [Trainer] in a state-and-exception
    monad, and finally the properties of the training loop. *)

From Stdlib Require Import ZArith QArith Ascii String List Lia.
From stdpp Require Import base gmap strings list fin_maps.

Local Open Scope string_scope.
Local Open Scope Z_scope.

(** ** Python exceptions and results *)

Inductive pyerr : Type :=
| ValueError (msg : string)
| KeyError (key : string)
| UnboundLocalError (name : string)
| AttributeError (name : string)
| IndexError
| TypeError
| ZeroDivisionError
| RuntimeError
| FileNotFoundError
| PyException (msg : string).

Inductive result (A : Type) : Type :=
| Ok (a : A)
| Raise (e : pyerr).
Arguments Ok {A} a.
Arguments Raise {A} e.

Definition is_ok {A} (r : result A) : bool :=
  match r with Ok _ => true | Raise _ => false end.

(** ** Floats

    A Python float is modelled by its value: a rational, an infinity or
    NaN.  Rounding is not modelled; the special values behave as in IEEE
    arithmetic, and float division by zero raises as in Python. *)

Inductive pyfloat : Type :=
| FNaN
| FInf (negative : bool)
| FNum (q : Q).

Definition Qltb (x y : Q) : bool := negb (Qle_bool y x).

Definition isnan (x : pyfloat) : bool :=
  match x with FNaN => true | _ => false end.

(** [x > y] *)
Definition fgt (x y : pyfloat) : bool :=
  match x, y with
  | FNaN, _ | _, FNaN => false
  | FInf sx, FInf sy => andb (negb sx) sy
  | FInf sx, FNum _ => negb sx
  | FNum _, FInf sy => sy
  | FNum a, FNum b => Qltb b a
  end.

Definition fadd (x y : pyfloat) : pyfloat :=
  match x, y with
  | FNaN, _ | _, FNaN => FNaN
  | FInf sx, FInf sy => if Bool.eqb sx sy then FInf sx else FNaN
  | FInf sx, FNum _ => FInf sx
  | FNum _, FInf sy => FInf sy
  | FNum a, FNum b => FNum (a + b)
  end.

Definition fmul (x y : pyfloat) : pyfloat :=
  match x, y with
  | FNaN, _ | _, FNaN => FNaN
  | FInf sx, FInf sy => FInf (xorb sx sy)
  | FInf s, FNum a | FNum a, FInf s =>
      if Qeq_bool a 0 then FNaN else FInf (xorb s (Qltb a 0))
  | FNum a, FNum b => FNum (a * b)
  end.

Definition fzero : pyfloat := FNum 0.

Definition is_fzero (x : pyfloat) : bool :=
  match x with FNum q => Qeq_bool q 0 | _ => false end.

(** Python's [x / y] on floats: the quotient, and the division that raises
    on a zero divisor. *)
Definition fquot (x y : pyfloat) : pyfloat :=
  match x, y with
  | FNaN, _ | _, FNaN => FNaN
  | FInf _, FInf _ => FNaN
  | FInf s, FNum b => FInf (xorb s (Qltb b 0))
  | FNum _, FInf _ => FNum 0
  | FNum a, FNum b => FNum (a / b)
  end.

Definition fdiv (x y : pyfloat) : result pyfloat :=
  if is_fzero y then Raise ZeroDivisionError else Ok (fquot x y).

(** [max(a, b)] of Python: the first argument unless the second is greater. *)
Definition fmax (a b : pyfloat) : pyfloat := if fgt b a then b else a.

(** The literal [1e-8]. *)
Definition eps8 : Q := (1 # 100000000)%Q.

(** An [int] used in float arithmetic. *)
Definition float_of_int (n : Z) : pyfloat := FNum (inject_Z n).

(** ** Tensors of token ids *)

Inductive tensor : Type :=
| T0 (x : Z)
| T1 (xs : list Z)
| T2 (rows : list (list Z)).

Definition transpose (rows : list (list Z)) : list (list Z) :=
  map (fun j => map (fun r => nth j r 0) rows)
      (seq 0 (length (hd [] rows))).

(** [t.t()]: tensors with fewer than two dimensions are returned as they are. *)
Definition tensor_t (t : tensor) : tensor :=
  match t with
  | T2 rows => T2 (transpose rows)
  | _ => t
  end.

(** [len(t.size())] *)
Definition tensor_dim (t : tensor) : nat :=
  match t with T0 _ => 0 | T1 _ => 1 | T2 _ => 2 end%nat.

(** [t.size(i)] *)
Definition tensor_size (t : tensor) (i : nat) : result nat :=
  match t, i with
  | T1 xs, O => Ok (length xs)
  | T2 rows, O => Ok (length rows)
  | T2 rows, S O => Ok (length (hd [] rows))
  | _, _ => Raise IndexError
  end.

(** [len(t)] *)
Definition tensor_len (t : tensor) : result nat :=
  match t with
  | T0 _ => Raise TypeError
  | T1 xs => Ok (length xs)
  | T2 rows => Ok (length rows)
  end.

(** [t[i]] *)
Definition tensor_item (t : tensor) (i : nat) : result tensor :=
  match t with
  | T0 _ => Raise IndexError
  | T1 xs => match xs !! i with Some x => Ok (T0 x) | None => Raise IndexError end
  | T2 rows => match rows !! i with Some r => Ok (T1 r) | None => Raise IndexError end
  end.

(** [(t != v).long()] *)
Definition ne_long (v x : Z) : Z := if Z.eqb x v then 0 else 1.

Definition tensor_ne_long (t : tensor) (v : Z) : tensor :=
  match t with
  | T0 x => T0 (ne_long v x)
  | T1 xs => T1 (map (ne_long v) xs)
  | T2 rows => T2 (map (map (ne_long v)) rows)
  end.

(** The [TEXT] field of a batch: the pair [(data, lengths)] when the field
    was built with lengths, the data tensor alone otherwise. *)
Inductive text_field : Type :=
| TextPair (data lengths : tensor)
| TextTensor (data : tensor).

Record batch : Type := Batch { TEXT : text_field; LABEL : tensor }.

(** [len(tmp)] *)
Definition text_len (tmp : text_field) : result nat :=
  match tmp with
  | TextPair _ _ => Ok 2%nat
  | TextTensor t => tensor_len t
  end.

(** [tmp[i]] *)
Definition text_item (tmp : text_field) (i : nat) : result tensor :=
  match tmp with
  | TextPair d l =>
      match i with O => Ok d | S O => Ok l | _ => Raise IndexError end
  | TextTensor t => tensor_item t i
  end.

(** [tmp.t()]: a tuple has no such method. *)
Definition text_t (tmp : text_field) : result tensor :=
  match tmp with
  | TextPair _ _ => Raise (AttributeError "t")
  | TextTensor t => Ok (tensor_t t)
  end.

(** Modelled from the spec: [generate_mask] of [training/learner_util.py],
    which is not part of the sources at hand.  The mask has shape
    [batch, max_length] and marks the valid positions up to each example's
    length. *)
Definition mask_row (seq_len : nat) (len : Z) : list Z :=
  map (fun j => if Z.of_nat j <? len then 1 else 0) (seq 0 seq_len).

Definition generate_mask (data_seq_length : tensor) (seq_len batch_size : nat)
  : result tensor :=
  match data_seq_length with
  | T1 lens =>
      if decide (batch_size ≤ length lens)%nat
      then Ok (T2 (map (mask_row seq_len) (take batch_size lens)))
      else Raise IndexError
  | _ => Raise IndexError
  end.

(** ** Python values held in dictionaries *)

(** Serialised state of the model, the optimizer or the scheduler. *)
Definition state_blob : Type := list Z.

(** The mutable part of the metric tracker, as written by [state_dict]. *)
Record tracker_state : Type := TrackerState {
  history : list pyfloat;
  best_value : option pyfloat;
  best_epoch : option Z;
  epochs_since_best : Z
}.

Inductive pyval : Type :=
| VNone
| VInt (n : Z)
| VFloat (f : pyfloat)
| VStr (s : string)
| VBlob (b : state_blob)
| VLogits (l : list (list pyfloat))
| VFloats (l : list pyfloat)
| VTracker (s : tracker_state).

(** [d[k]] *)
Definition getitem {V} (d : gmap string V) (k : string) : result V :=
  match d !! k with
  | Some v => Ok v
  | None => Raise (KeyError k)
  end.

(** ** Metric tracker *)

(** Modelled from the spec: [MetricTracker] of [training/learner_util.py],
    which is not part of the sources at hand.  The direction is read from
    the sign marker that leads the configured metric name (descending for
    [-]; the specification leaves names without a marker open, and they are
    taken as ascending here); [add_metric] appends to the history and
    recomputes the best value, its epoch and the number of epochs since;
    [should_stop_early] holds when patience is configured and the epochs
    since the best have reached it; [clear] resets the history. *)
Record MetricTracker : Type := mkTracker {
  patience : option Z;
  is_higher_better : bool;
  tracked : tracker_state;
  best_epoch_metrics : gmap string pyfloat
}.

Definition tracker_clear_state : tracker_state :=
  TrackerState [] None None 0.

Definition MetricTracker_init (patience : option Z) (metric_name : string)
  : MetricTracker :=
  mkTracker patience
            (match metric_name with
             | String "-"%char _ => false
             | _ => true
             end)
            tracker_clear_state ∅.

Definition better (higher : bool) (v best : pyfloat) : bool :=
  if higher then fgt v best else fgt best v.

Definition add_metric_state (higher : bool) (v : pyfloat) (s : tracker_state)
  : tracker_state :=
  let here := Z.of_nat (length (history s)) in
  match best_value s with
  | None => TrackerState (history s ++ [v]) (Some v) (Some here) 0
  | Some b =>
      if better higher v b
      then TrackerState (history s ++ [v]) (Some v) (Some here) 0
      else TrackerState (history s ++ [v]) (Some b) (best_epoch s)
                        (epochs_since_best s + 1)
  end.

Definition with_tracked (t : MetricTracker) (s : tracker_state) : MetricTracker :=
  mkTracker (patience t) (is_higher_better t) s (best_epoch_metrics t).

Definition add_metric (v : pyfloat) (t : MetricTracker) : MetricTracker :=
  with_tracked t (add_metric_state (is_higher_better t) v (tracked t)).

Definition add_metrics (vs : list pyfloat) (t : MetricTracker) : MetricTracker :=
  fold_left (fun t v => add_metric v t) vs t.

Definition is_best_so_far (t : MetricTracker) : bool :=
  epochs_since_best (tracked t) =? 0.

Definition should_stop_early (t : MetricTracker) : bool :=
  match patience t with
  | None => false
  | Some p => p <=? epochs_since_best (tracked t)
  end.

Definition tracker_state_dict (t : MetricTracker) : tracker_state := tracked t.

Definition tracker_load_state_dict (s : tracker_state) (t : MetricTracker)
  : MetricTracker := with_tracked t s.

Definition tracker_clear (t : MetricTracker) : MetricTracker :=
  with_tracked t tracker_clear_state.

Definition set_best_epoch_metrics (m : gmap string pyfloat) (t : MetricTracker)
  : MetricTracker :=
  mkTracker (patience t) (is_higher_better t) (tracked t) m.

(** ** Checkpointer *)

(** What stable storage holds for one epoch: the two blobs, or a file that
    cannot be loaded any more. *)
Inductive snapshot : Type :=
| Snapshot (model_state : state_blob) (training_state : gmap string pyval)
| Unreadable.

(** Modelled from the spec: [Checkpointer] of [training/learner_util.py],
    which is not part of the sources at hand.  [save_checkpoint] writes the
    model weights and the training state for the epoch (the record carries
    its epoch, which [Trainer.restore_checkpoint] reads back as
    [training_state["epoch"]]), overwrites the best-designated copy when the
    epoch is the best so far, and prunes the oldest snapshots beyond the
    retention count; [restore_checkpoint] returns the most recent snapshot,
    the empty signal when there is none, and fails when the snapshot cannot
    be loaded. *)
Record Checkpointer : Type := mkCheckpointer {
  num_serialized_models_to_keep : option nat;
  snapshots : list (Z * snapshot);
  best_th : option state_blob
}.

Definition prune {A} (keep : option nat) (l : list A) : list A :=
  match keep with
  | None => l
  | Some k => drop (length l - k) l
  end.

Definition Checkpointer_save (model_state : state_blob) (epoch : Z)
    (training_states : gmap string pyval) (is_best : bool) (c : Checkpointer)
  : Checkpointer :=
  mkCheckpointer
    (num_serialized_models_to_keep c)
    (prune (num_serialized_models_to_keep c)
           (snapshots c ++
            [(epoch, Snapshot model_state (<["epoch" := VInt epoch]> training_states))]))
    (if is_best then Some model_state else best_th c).

Definition Checkpointer_restore (c : Checkpointer)
  : result (option state_blob * option (gmap string pyval)) :=
  match last (snapshots c) with
  | None => Ok (None, None)
  | Some (_, Unreadable) => Raise RuntimeError
  | Some (_, Snapshot m t) => Ok (Some m, Some t)
  end.

(** The epochs that have a snapshot on stable storage. *)
Definition saved_epochs (c : Checkpointer) : list Z := map fst (snapshots c).

(** ** External collaborators

    The model, the loss, the metric, the optimizer and the scheduler are
    consumed through their call contracts only. *)

(** One call [self.metric(logits, label[, mask])]. *)
Record metric_update : Type := MetricUpdate {
  mu_logits : pyval;
  mu_label : tensor;
  mu_mask : option tensor
}.

Record Collaborators : Type := mkCollaborators {
  (** [model(data, [data_seq_length,] mask, label)] under the given
      parameters and mode ([true] for training mode) *)
  model_call : state_blob -> bool -> tensor -> option tensor -> tensor -> tensor
               -> result (gmap string pyval);
  (** [self.loss_func], set only when a loss name was configured *)
  loss_func : option (pyval -> tensor -> pyfloat);
  (** [metric.get_metric] as a function of the updates since the last reset *)
  metric_compute : list metric_update -> gmap string pyfloat;
  (** [loss.backward()], gradient rescaling and [optimizer.step()] for one
      batch: the new parameters and optimizer state *)
  backward_step : state_blob -> state_blob -> batch -> state_blob * state_blob;
  (** [learning_rate_scheduler.step(metric, epoch)] *)
  scheduler_step : state_blob -> pyfloat -> Z -> state_blob;
  (** the formatted time elapsed when the given epoch ends *)
  training_duration : Z -> string;
  (** [int(s)] on a string *)
  py_int : string -> result Z
}.

(** ** The trainer *)

Inductive log_event : Type :=
| LogBeginningTraining
| LogDevice (cuda_device : Z)
| LogEpoch (epoch_plus_1 num_epochs : Z)
| LogTraining
| LogValidating
| LogTest
| LogRanOutOfPatience.

Record TrainerConf : Type := mkConf {
  num_epochs : Z;
  train_iter : list batch;
  val_iter : option (list batch);
  test_iter : option (list batch);
  serialization_dir : option string;
  sequence_model : bool;
  label_index : Z;
  padding_idx : Z;
  validation_metric : string;
  fields : option (list string * list string);
  cuda_device : Z
}.

Record Trainer : Type := mkTrainer {
  conf : TrainerConf;
  model : state_blob;
  model_training : bool;
  optimizer : state_blob;
  learning_rate_scheduler : option state_blob;
  metric : list metric_update;
  metric_tracker : MetricTracker;
  checkpointer : Checkpointer;
  batch_num_total : pyval;
  logged : list log_event
}.

Definition set_model (v : state_blob) (t : Trainer) : Trainer :=
  mkTrainer (conf t) v (model_training t) (optimizer t)
            (learning_rate_scheduler t) (metric t) (metric_tracker t)
            (checkpointer t) (batch_num_total t) (logged t).

Definition set_model_training (v : bool) (t : Trainer) : Trainer :=
  mkTrainer (conf t) (model t) v (optimizer t)
            (learning_rate_scheduler t) (metric t) (metric_tracker t)
            (checkpointer t) (batch_num_total t) (logged t).

Definition set_optimizer (v : state_blob) (t : Trainer) : Trainer :=
  mkTrainer (conf t) (model t) (model_training t) v
            (learning_rate_scheduler t) (metric t) (metric_tracker t)
            (checkpointer t) (batch_num_total t) (logged t).

Definition set_learning_rate_scheduler (v : option state_blob) (t : Trainer)
  : Trainer :=
  mkTrainer (conf t) (model t) (model_training t) (optimizer t)
            v (metric t) (metric_tracker t)
            (checkpointer t) (batch_num_total t) (logged t).

Definition set_metric (v : list metric_update) (t : Trainer) : Trainer :=
  mkTrainer (conf t) (model t) (model_training t) (optimizer t)
            (learning_rate_scheduler t) v (metric_tracker t)
            (checkpointer t) (batch_num_total t) (logged t).

Definition set_metric_tracker (v : MetricTracker) (t : Trainer) : Trainer :=
  mkTrainer (conf t) (model t) (model_training t) (optimizer t)
            (learning_rate_scheduler t) (metric t) v
            (checkpointer t) (batch_num_total t) (logged t).

Definition set_checkpointer (v : Checkpointer) (t : Trainer) : Trainer :=
  mkTrainer (conf t) (model t) (model_training t) (optimizer t)
            (learning_rate_scheduler t) (metric t) (metric_tracker t)
            v (batch_num_total t) (logged t).

Definition set_batch_num_total (v : pyval) (t : Trainer) : Trainer :=
  mkTrainer (conf t) (model t) (model_training t) (optimizer t)
            (learning_rate_scheduler t) (metric t) (metric_tracker t)
            (checkpointer t) v (logged t).

Definition log_info (e : log_event) (t : Trainer) : Trainer :=
  mkTrainer (conf t) (model t) (model_training t) (optimizer t)
            (learning_rate_scheduler t) (metric t) (metric_tracker t)
            (checkpointer t) (batch_num_total t) (logged t ++ [e]).

(** [Trainer.__init__], lines 78-90: the lookup key is the configured name
    without its first character; the tracker receives the full name. *)
Definition init_validation_metric (validation_metric : string) : string :=
  match validation_metric with
  | EmptyString => EmptyString
  | String _ rest => rest
  end.

Record TrainerArgs : Type := mkArgs {
  arg_model : state_blob;
  arg_optimizer : state_blob;
  arg_num_epochs : Z;
  arg_train_iter : list batch;
  arg_val_iter : option (list batch);
  arg_test_iter : option (list batch);
  arg_serialization_dir : option string;
  arg_sequence_model : bool;
  arg_label_index : Z;
  arg_padding_idx : Z;
  arg_patience : option Z;
  arg_validation_metric : string;
  arg_learning_rate_scheduler : option state_blob;
  arg_num_serialized_models_to_keep : option nat;
  arg_fields : option (list string * list string);
  (** what stable storage holds under [serialization_dir] at start *)
  arg_storage : list (Z * snapshot);
  arg_best_th : option state_blob;
  arg_device : Z
}.

Definition Trainer_init (a : TrainerArgs) : Trainer :=
  mkTrainer
    (mkConf (arg_num_epochs a) (arg_train_iter a) (arg_val_iter a)
            (arg_test_iter a) (arg_serialization_dir a) (arg_sequence_model a)
            (arg_label_index a) (arg_padding_idx a)
            (init_validation_metric (arg_validation_metric a))
            (arg_fields a) (arg_device a))
    (arg_model a) true (arg_optimizer a) (arg_learning_rate_scheduler a) []
    (MetricTracker_init (arg_patience a) (arg_validation_metric a))
    (mkCheckpointer (arg_num_serialized_models_to_keep a) (arg_storage a)
                    (arg_best_th a))
    (VInt 0) [].

(** ** The state-and-exception monad of the methods *)

Definition M (A : Type) : Type := Trainer -> result A * Trainer.

Definition ret {A} (a : A) : M A := fun t => (Ok a, t).

Definition raise {A} (e : pyerr) : M A := fun t => (Raise e, t).

Definition bind {A B} (m : M A) (k : A -> M B) : M B :=
  fun t => match m t with
           | (Ok a, t') => k a t'
           | (Raise e, t') => (Raise e, t')
           end.

Definition lift {A} (r : result A) : M A := fun t => (r, t).

Definition get : M Trainer := fun t => (Ok t, t).

Definition modify (f : Trainer -> Trainer) : M unit := fun t => (Ok tt, f t).

Notation "x <- m ;; k" := (bind m (fun x => k))
  (at level 100, m at next level, right associativity).
Notation "m ;;; k" := (bind m (fun _ => k))
  (at level 100, right associativity).

(** [try: m except RuntimeError: raise e] *)
Definition except_RuntimeError {A} (m : M A) (e : pyerr) : M A :=
  fun t => match m t with
           | (Raise RuntimeError, t') => (Raise e, t')
           | r => r
           end.

Definition rbind {A B} (r : result A) (k : A -> result B) : result B :=
  match r with
  | Ok a => k a
  | Raise e => Raise e
  end.

Notation "x <~ r ;; k" := (rbind r (fun x => k))
  (at level 100, r at next level, right associativity).

(** ** Arithmetic on dynamically typed values *)

Definition py_float (v : pyval) : result pyfloat :=
  match v with
  | VFloat f => Ok f
  | VInt n => Ok (float_of_int n)
  | _ => Raise TypeError
  end.

Definition py_mul (a b : pyval) : result pyval :=
  match a, b with
  | VInt x, VInt y => Ok (VInt (x * y))
  | _, _ => x <~ py_float a ;; y <~ py_float b ;; Ok (VFloat (fmul x y))
  end.

Definition py_add (a b : pyval) : result pyval :=
  match a, b with
  | VInt x, VInt y => Ok (VInt (x + y))
  | _, _ => x <~ py_float a ;; y <~ py_float b ;; Ok (VFloat (fadd x y))
  end.

(** [torch.isnan(loss)] and [loss.item()] want a scalar tensor. *)
Definition torch_isnan (loss : pyval) : result bool :=
  match loss with
  | VFloat f => Ok (isnan f)
  | _ => Raise TypeError
  end.

Definition item (loss : pyval) : result pyfloat :=
  match loss with
  | VFloat f => Ok f
  | _ => Raise (AttributeError "item")
  end.

(** [max(metrics.get(k, 0), value)] *)
Definition py_max (old : pyval) (value : pyfloat) : result pyval :=
  o <~ py_float old ;;
  Ok (if fgt value o then VFloat value else old).

(** ** Methods of [Trainer] *)

(** Lines 377-392 of [batch_loss]: the data, the sequence lengths and the
    mask that are handed to the model. *)
Definition batch_inputs (padding_idx : Z) (tmp : text_field)
  : result (tensor * option tensor * tensor) :=
  n <~ text_len tmp ;;
  if Nat.eqb n 2 then
    d <~ text_item tmp 0 ;;
    let data := tensor_t d in
    data_seq_length <~ text_item tmp 1 ;;
    seq_len <~ tensor_size data 1 ;;
    batch_size <~ tensor_size data 0 ;;
    mask <~ generate_mask data_seq_length seq_len batch_size ;;
    Ok (data, Some data_seq_length, mask)
  else
    data <~ text_t tmp ;;
    Ok (data, None, tensor_ne_long data padding_idx).

(** Lines 378-380 of [batch_loss]. *)
Definition batch_label (label : tensor) : tensor :=
  if (1 <? tensor_dim label)%nat then tensor_t label else label.

Section Methods.

Context (C : Collaborators).

(** Lines 403-410 of [batch_loss]: the loss from the model's result. *)
Definition loss_of_result (res : gmap string pyval) (logits : pyval)
    (label : tensor) : result pyval :=
  match res !! "loss" with
  | None =>
      match loss_func C with
      | None => Raise (AttributeError "loss_func")
      | Some f =>
          let loss := VFloat (f logits label) in
          match res !! "coefficient" with
          | Some c =>
              r <~ getitem res "regulariration_loss" ;;
              p <~ py_mul c r ;;
              py_add loss p
          | None => Ok loss
          end
      end
  | Some l => Ok l
  end.

Definition batch_loss (batch_group : batch) : M pyval :=
  t <- get ;;
  let tmp := TEXT batch_group in
  let label := batch_label (LABEL batch_group) in
  inputs <- lift (batch_inputs (padding_idx (conf t)) tmp) ;;
  let '(data, data_seq_length, mask) := inputs in
  res <- lift (model_call C (model t) (model_training t)
                          data data_seq_length mask label) ;;
  logits <- lift (getitem res "logits") ;;
  loss <- lift (loss_of_result res logits label) ;;
  modify (fun t =>
    set_metric (metric t ++
                [MetricUpdate logits label
                   (if sequence_model (conf t) then Some mask else None)]) t) ;;;
  ret loss.

(** Lines 368-371. *)
Definition loss_metric (loss : pyfloat) (batchs : Z) : result pyfloat :=
  if fgt loss fzero
  then fdiv loss (fadd (float_of_int batchs) (FNum eps8))
  else Ok fzero.

Definition get_metrics (loss : pyfloat) (batchs : Z) (reset : bool)
  : M (gmap string pyfloat) :=
  t <- get ;;
  let metrics := metric_compute C (metric t) in
  (if reset then modify (set_metric []) else ret tt) ;;;
  l <- lift (loss_metric loss batchs) ;;
  ret (<["loss" := l]> metrics).

(** Lines 430-435: the batch loop of [val_epoch]. *)
Fixpoint val_batches (data_iter : list batch) (val_loss : pyfloat)
    (batches_this_epoch : Z) : M (pyfloat * Z) :=
  match data_iter with
  | [] => ret (val_loss, batches_this_epoch)
  | batch_group :: rest =>
      loss <- batch_loss batch_group ;;
      match loss with
      | VNone => val_batches rest val_loss batches_this_epoch
      | VFloat f => val_batches rest (fadd val_loss f) (batches_this_epoch + 1)
      | _ => raise (AttributeError "detach")
      end
  end.

Definition val_epoch (mode : string) : M (pyfloat * Z) :=
  t <- get ;;
  (if decide (mode = "val") then modify (log_info LogValidating)
   else modify (log_info LogTest)) ;;;
  let data_iter :=
    if decide (mode = "val") then val_iter (conf t) else test_iter (conf t) in
  modify (set_model_training false) ;;;
  match data_iter with
  | None => raise TypeError
  | Some batches => val_batches batches fzero 0
  end.

(** [self.batch_num_total += 1] *)
Definition incr_batch_num_total : M unit :=
  t <- get ;;
  n <- lift (py_add (batch_num_total t) (VInt 1)) ;;
  modify (set_batch_num_total n).

(** Lines 329-352: the backward pass and the optimizer step on one batch. *)
Definition step_on (batch_group : batch) (t : Trainer) : Trainer :=
  let '(m, o) := backward_step C (model t) (optimizer t) batch_group in
  set_optimizer o (set_model m t).

(** Lines 320-352: the batch loop of [train_epoch].  What lines 338-363
    send to the telemetry writer is read off the trainer and changes nothing
    in it. *)
Fixpoint train_batches (it : list batch) (train_loss : pyfloat)
    (batches_this_epoch : Z) : M (pyfloat * Z) :=
  match it with
  | [] => ret (train_loss, batches_this_epoch)
  | batch_group :: rest =>
      incr_batch_num_total ;;;
      loss <- batch_loss batch_group ;;
      nan <- lift (torch_isnan loss) ;;
      if nan : bool then raise (ValueError "nan loss encountered")
      else
        l <- lift (item loss) ;;
        modify (step_on batch_group) ;;;
        train_batches rest (fadd train_loss l) (batches_this_epoch + 1)
  end.

(** Lines 305-318: the trainer when the batch loop of [train_epoch] starts. *)
Definition begin_epoch (epoch : Z) (t : Trainer) : Trainer :=
  let t := log_info (LogEpoch (epoch + 1) (num_epochs (conf t))) t in
  let t := set_model_training true t in
  let t := match batch_num_total t with
           | VNone => set_batch_num_total (VInt 0) t
           | _ => t
           end in
  log_info LogTraining t.

Definition train_epoch (epoch : Z) : M (gmap string pyfloat) :=
  modify (begin_epoch epoch) ;;;
  t <- get ;;
  r <- train_batches (train_iter (conf t)) fzero 0 ;;
  get_metrics (fst r) (snd r) true.

(** Lines 240-262. *)
Definition training_states_of (t : Trainer) : gmap string pyval :=
  let training_states : gmap string pyval :=
    <["metric_traceker" := VTracker (tracker_state_dict (metric_tracker t))]>
    (<["optimizer" := VBlob (optimizer t)]>
    (<["batch_num_total" := batch_num_total t]> ∅)) in
  match learning_rate_scheduler t with
  | Some s => <["learning_rate_scheduler" := VBlob s]> training_states
  | None => training_states
  end.

Definition save_checkpoint (epoch : Z) : M unit :=
  modify (fun t =>
    set_checkpointer
      (Checkpointer_save (model t) epoch (training_states_of t)
                         (is_best_so_far (metric_tracker t)) (checkpointer t))
      t).

Definition load_blob (v : pyval) : result state_blob :=
  match v with
  | VBlob b => Ok b
  | _ => Raise TypeError
  end.

(** [s.split('.')[0]] *)
Fixpoint before_dot (s : string) : string :=
  match s with
  | EmptyString => EmptyString
  | String c rest =>
      if Ascii.eqb c "."%char then EmptyString else String c (before_dot rest)
  end.

(** Lines 279-287: which saved entry rehydrates the metric tracker. *)
Definition restore_tracker (training_state : gmap string pyval)
    (tracker : MetricTracker) : result MetricTracker :=
  match training_state !! "metric_tracker" with
  | Some v =>
      match v with
      | VTracker s => Ok (tracker_load_state_dict s tracker)
      | _ => Raise TypeError
      end
  | None =>
      match training_state !! "val_metric_per_epoch" with
      | Some v =>
          match v with
          | VFloats l => Ok (add_metrics l (tracker_clear tracker))
          | _ => Raise TypeError
          end
      | None => Ok (tracker_clear tracker)
      end
  end.

(** Lines 289-292. *)
Definition epoch_to_return (training_state : gmap string pyval) : result Z :=
  e <~ getitem training_state "epoch" ;;
  match e with
  | VInt n => Ok (n + 1)
  | VStr s => n <~ py_int C (before_dot s) ;; Ok (n + 1)
  | _ => Raise (AttributeError "split")
  end.

(** Lines 269-298, from what the checkpointer returned. *)
Definition restore_from (model_state : option state_blob)
    (training_state : option (gmap string pyval)) : M Z :=
  match training_state with
  | None => ret 0
  | Some training_state =>
      if decide (training_state = ∅) then ret 0
      else
        m <- lift (match model_state with
                   | Some m => Ok m
                   | None => Raise TypeError
                   end) ;;
        modify (set_model m) ;;;
        o <- lift (b <~ getitem training_state "optimizer" ;; load_blob b) ;;
        modify (set_optimizer o) ;;;
        t <- get ;;
        (match learning_rate_scheduler t,
               training_state !! "learning_rate_scheduler" with
         | Some _, Some v =>
             s <- lift (load_blob v) ;;
             modify (set_learning_rate_scheduler (Some s))
         | _, _ => ret tt
         end) ;;;
        tr <- lift (restore_tracker training_state (metric_tracker t)) ;;
        modify (set_metric_tracker tr) ;;;
        e <- lift (epoch_to_return training_state) ;;
        (match training_state !! "batch_num_total" with
         | None | Some VNone => ret tt
         | Some n => modify (set_batch_num_total n)
         end) ;;;
        ret e
  end.

(** Lines 264-298. *)
Definition restore_checkpoint : M Z :=
  t <- get ;;
  r <- lift (Checkpointer_restore (checkpointer t)) ;;
  restore_from (fst r) (snd r).

(** *** [learn] *)

(** The local variables of [learn] that live across epochs.  [val_metrics]
    and [this_epoch_val_metric] are bound only once the validation branch
    has run. *)
Record locals : Type := mkLocals {
  l_metrics : gmap string pyval;
  l_train_epoch : Z;
  l_val_metrics : option (gmap string pyfloat);
  l_this_epoch_val_metric : option pyfloat
}.

(** How one turn of the epoch loop ends. *)
Inductive flow : Type :=
| Next (l : locals)
| Break (l : locals).

(** [for key, value in d.items(): metrics[prefix + key] = value] *)
Definition add_prefixed (prefix : string) (d : gmap string pyfloat)
    (metrics : gmap string pyval) : gmap string pyval :=
  map_fold (fun key value acc => <[String.append prefix key := VFloat value]> acc)
           metrics d.

(** Lines 154-156. *)
Definition peak_cpu (train_metrics : gmap string pyfloat)
    (metrics : gmap string pyval) : result (gmap string pyval) :=
  match train_metrics !! "cpu_memory_MB" with
  | Some v =>
      m <~ py_max (default (VInt 0) (metrics !! "peak_cpu_memory_MB")) v ;;
      Ok (<["peak_cpu_memory_MB" := m]> metrics)
  | None => Ok metrics
  end.

(** Lines 157-159. *)
Definition peak_gpu (train_metrics : gmap string pyfloat)
    (metrics : gmap string pyval) : result (gmap string pyval) :=
  map_fold
    (fun key value (acc : result (gmap string pyval)) =>
       metrics <~ acc ;;
       if String.prefix "gpu_" key then
         let k := String.append "peak_" key in
         m <~ py_max (default (VInt 0) (metrics !! k)) value ;;
         Ok (<[k := m]> metrics)
       else Ok metrics)
    (Ok metrics) train_metrics.

(** A local variable that is read before any assignment to it. *)
Definition read_local {A} (name : string) (v : option A) : result A :=
  match v with
  | Some a => Ok a
  | None => Raise (UnboundLocalError name)
  end.

(** Lines 161-170: the validation branch; the flag says whether the loop
    breaks. *)
Definition validate (l : locals)
  : M (bool * option (gmap string pyfloat) * option pyfloat) :=
  t <- get ;;
  match val_iter (conf t) with
  | Some _ =>
      r <- val_epoch "val" ;;
      val_metrics <- get_metrics (fst r) (snd r) true ;;
      this_epoch_val_metric <-
        lift (getitem val_metrics (validation_metric (conf t))) ;;
      modify (fun t =>
        set_metric_tracker
          (add_metric this_epoch_val_metric (metric_tracker t)) t) ;;;
      t' <- get ;;
      if should_stop_early (metric_tracker t') then
        modify (log_info LogRanOutOfPatience) ;;;
        ret (true, Some val_metrics, Some this_epoch_val_metric)
      else ret (false, Some val_metrics, Some this_epoch_val_metric)
  | None => ret (false, l_val_metrics l, l_this_epoch_val_metric l)
  end.

(** Lines 172-202: the rest of the loop body, after the validation branch
    did not break. *)
Definition finish_epoch (epoch_counter epoch : Z)
    (train_metrics : gmap string pyfloat) (l : locals) : M locals :=
  val_metrics <- lift (read_local "val_metrics" (l_val_metrics l)) ;;
  let metrics :=
    <["epoch" := VInt epoch]>
    (<["training_epochs" := VInt (l_train_epoch l)]>
    (<["training_start_epoch" := VInt epoch_counter]>
    (<["training_duration" := VStr (training_duration C epoch)]>
     (l_metrics l)))) in
  let metrics := add_prefixed "training_" train_metrics metrics in
  let metrics := add_prefixed "validation_" val_metrics metrics in
  t <- get ;;
  metrics <-
    (if is_best_so_far (metric_tracker t) then
       modify (fun t =>
         set_metric_tracker
           (set_best_epoch_metrics val_metrics (metric_tracker t)) t) ;;;
       ret (add_prefixed "best_validation_" val_metrics
              (<["best_epoch" := VInt epoch]> metrics))
     else ret metrics) ;;
  (match learning_rate_scheduler t with
   | Some s =>
       m <- lift (read_local "this_epoch_val_metric"
                             (l_this_epoch_val_metric l)) ;;
       modify (set_learning_rate_scheduler (Some (scheduler_step C s m epoch)))
   | None => ret tt
   end) ;;;
  save_checkpoint epoch ;;;
  ret (mkLocals metrics (l_train_epoch l + 1)
                (l_val_metrics l) (l_this_epoch_val_metric l)).

(** Lines 152-202: one turn of the epoch loop. *)
Definition learn_epoch (epoch_counter epoch : Z) (l : locals) : M flow :=
  train_metrics <- train_epoch epoch ;;
  metrics <- lift (peak_cpu train_metrics (l_metrics l)) ;;
  metrics <- lift (peak_gpu train_metrics metrics) ;;
  v <- validate l ;;
  let '(stop, val_metrics, this_epoch_val_metric) := v in
  let l := mkLocals metrics (l_train_epoch l)
                    val_metrics this_epoch_val_metric in
  if stop : bool then ret (Break l)
  else
    l' <- finish_epoch epoch_counter epoch train_metrics l ;;
    ret (Next l').

(** The [for] loop of line 151: [Next] when the epochs are exhausted,
    [Break] when the loop was left early. *)
Fixpoint learn_loop (epoch_counter : Z) (epochs : list Z) (l : locals)
  : M flow :=
  match epochs with
  | [] => ret (Next l)
  | epoch :: rest =>
      f <- learn_epoch epoch_counter epoch l ;;
      match f with
      | Next l' => learn_loop epoch_counter rest l'
      | Break l' => ret (Break l')
      end
  end.

Definition locals_of (f : flow) : locals :=
  match f with Next l | Break l => l end.

(** [range(a, b)] *)
Definition range (a b : Z) : list Z :=
  map (fun i => a + Z.of_nat i) (seq 0 (Z.to_nat (b - a))).

(** Lines 204-214: the held-out pass on the best weights. *)
Definition test_phase : M unit :=
  t <- get ;;
  match test_iter (conf t) with
  | Some _ =>
      w <- lift (match serialization_dir (conf t) with
                 | None => Raise TypeError
                 | Some _ =>
                     match best_th (checkpointer t) with
                     | Some w => Ok w
                     | None => Raise FileNotFoundError
                     end
                 end) ;;
      modify (set_model w) ;;;
      r <- val_epoch "test" ;;
      get_metrics (fst r) (snd r) true ;;;
      ret tt
  | None => ret tt
  end.

(** Lines 220-238: the paths are joined onto [serialization_dir] and the
    vocabularies are read from [fields]. *)
Definition dump_info : M unit :=
  t <- get ;;
  match serialization_dir (conf t), fields (conf t) with
  | Some _, Some _ => ret tt
  | _, _ => raise TypeError
  end.

Definition could_not_recover : string :=
  "Could not recover training from the checkpoint.  Did you mean to output to a different serialization directory or delete the existing serialization directory?".

Definition initial_metrics (t : Trainer) : gmap string pyval :=
  add_prefixed "best_validation_" (best_epoch_metrics (metric_tracker t))
    (<["best_epoch" := match best_epoch (tracked (metric_tracker t)) with
                       | Some e => VInt e
                       | None => VNone
                       end]> ∅).

(** Lines 141-142: the two lines logged before the epoch loop. *)
Definition begin_training (t : Trainer) : Trainer :=
  log_info (LogDevice (cuda_device (conf t)))
           (log_info LogBeginningTraining t).

(** Lines 128-218.  Telemetry and the files written along the way leave the
    trainer as it is and are not part of the state. *)
Definition learn : M (gmap string pyval) :=
  epoch_counter <-
    except_RuntimeError restore_checkpoint (PyException could_not_recover) ;;
  modify begin_training ;;;
  t <- get ;;
  f <- learn_loop epoch_counter (range epoch_counter (num_epochs (conf t)))
                  (mkLocals (initial_metrics t) 0 None None) ;;
  test_phase ;;;
  dump_info ;;;
  ret (l_metrics (locals_of f)).

End Methods.

(** ** The text classifier ([models/textcnn.py])

    [TextCnn.__init__] normalises its filter arguments and sizes the layers
    it builds; the layers themselves are external and are recorded by the
    arguments they are built with. *)

(** An argument that is an [int] or a list (or tuple) of them. *)
Inductive int_or_list : Type :=
| An_int (n : Z)
| A_list (l : list Z).

Record TextCnn : Type := mkTextCnn {
  (** [CnnMaxpoolLayer(input_dim, filter_num, filter_size, **kwargs)] *)
  encoder_input_dim : Z;
  encoder_filter_num : list Z;
  encoder_filter_size : list Z;
  (** [TokenEmbedding(input_dim, vocab_size)] *)
  embedding_dim : Z;
  embedding_vocab_size : Z;
  (** the vectors handed to [embedding.from_pretrained], if any *)
  embedding_pretrained : option pyval;
  (** [nn.Dropout(p=dropout)] *)
  dropout_p : pyfloat;
  (** [nn.Linear(sum(filter_num), label_num)] *)
  fc_in_features : Z;
  fc_out_features : Z
}.

(** The truth value of a Python value. *)
Definition py_truthy (v : pyval) : bool :=
  match v with
  | VNone => false
  | VInt n => negb (n =? 0)
  | VFloat f => negb (is_fzero f)
  | VStr s => negb (String.eqb s "")
  | VBlob b => negb (Nat.eqb (length b) 0)
  | VLogits l => negb (Nat.eqb (length l) 0)
  | VFloats l => negb (Nat.eqb (length l) 0)
  | VTracker _ => true
  end.

(** [sum(l)] *)
Definition py_sum (l : list Z) : Z := fold_left Z.add l 0.

(** Lines 19-42 of [models/textcnn.py]. *)
Definition TextCnn_init (input_dim vocab_size : Z)
    (filter_size filter_num : int_or_list) (label_num : Z) (dropout : pyfloat)
    (kwargs : gmap string pyval) : result TextCnn :=
  let filter_size :=
    match filter_size with
    | An_int n => [n]
    | A_list l => l
    end in
  let filter_num :=
    match filter_num with
    | An_int n => repeat n (length filter_size)
    | A_list l => l
    end in
  pretrained <~
    match kwargs !! "pretrain" with
    | Some flag =>
        if py_truthy flag
        then v <~ getitem kwargs "vectors" ;; Ok (Some v)
        else Ok None
    | None => Ok None
    end ;;
  Ok (mkTextCnn input_dim filter_num filter_size input_dim vocab_size
                pretrained dropout (py_sum filter_num) label_num).

(** ** The behaviour the specification describes

    Two computations written after the words of the specification, to be set
    against [batch_loss]. *)


(** The mask as specified: built from the lengths when the batch carries
    them, from the comparison with the padding index when it does not. *)
Definition specified_mask (padding_idx : Z) (tmp : text_field)
  : result tensor :=
  match tmp with
  | TextPair d lengths =>
      let data := tensor_t d in
      seq_len <~ tensor_size data 1 ;;
      batch_size <~ tensor_size data 0 ;;
      generate_mask lengths seq_len batch_size
  | TextTensor d => Ok (tensor_ne_long (tensor_t d) padding_idx)
  end.

(** ** Concrete collaborators and trainers *)

(** A model that answers every call with the same result. *)
Definition model_with (res : gmap string pyval)
  : state_blob -> bool -> tensor -> option tensor -> tensor -> tensor
    -> result (gmap string pyval) :=
  fun _ _ _ _ _ _ => Ok res.

(** A model that supplies its own loss, computed from its parameters and
    its mode. *)
Definition model_with_loss (g : state_blob -> bool -> pyfloat)
  : state_blob -> bool -> tensor -> option tensor -> tensor -> tensor
    -> result (gmap string pyval) :=
  fun params training _ _ _ _ =>
    Ok (<["logits" := VLogits []]>
        (<["loss" := VFloat (g params training)]> ∅)).

(** Collaborators around a model: a constant external loss, a metric with
    no entries of its own, an optimizer step that lowers every parameter by
    one and counts the steps. *)
Definition collaborators_of
    (m : state_blob -> bool -> tensor -> option tensor -> tensor -> tensor
         -> result (gmap string pyval)) : Collaborators :=
  mkCollaborators m (Some (fun _ _ => FNum 7)) (fun _ => ∅)
    (fun params opt _ => (map Z.pred params, 1 :: opt))
    (fun s _ _ => s) (fun _ => "00:00:00")
    (fun _ => Raise (ValueError "invalid literal for int()")).

Definition first_param (params : state_blob) (_ : bool) : pyfloat :=
  FNum (inject_Z (hd 0 params)).

Definition nan_when_evaluating (_ : state_blob) (training : bool) : pyfloat :=
  if training then FNum 1 else FNaN.

Definition nan_at_three (params : state_blob) (_ : bool) : pyfloat :=
  if hd 0 params =? 3 then FNaN else FNum (inject_Z (hd 0 params)).

(** Three sentences of three tokens, padded with [1]; no lengths. *)
Definition batch3 : batch :=
  Batch (TextTensor (T2 [[5; 7; 2]; [6; 1; 3]; [2; 1; 4]])) (T1 [0; 1; 0]).

(** Two sentences of two tokens, padded with [1]; no lengths. *)
Definition batch2 : batch :=
  Batch (TextTensor (T2 [[5; 7]; [1; 9]])) (T1 [0; 1]).

(** Three sentences of lengths 3, 1 and 4 with their lengths. *)
Definition batch_with_lengths : batch :=
  Batch (TextPair (T2 [[5; 7; 2]; [6; 1; 3]; [2; 1; 4]; [1; 1; 9]])
                  (T1 [3; 1; 4]))
        (T1 [0; 1; 0]).

Definition args_of (num_epochs : Z) (train_iter : list batch)
    (val_iter : option (list batch)) (patience : option Z)
    (validation_metric : string) : TrainerArgs :=
  mkArgs [5] [] num_epochs train_iter val_iter None (Some "out") false 1 1
         patience validation_metric None (Some 20%nat) (Some ([], []))
         [] None (-1).



(** A fresh trainer on one batch, without validation. *)
Definition fresh_trainer : Trainer :=
  Trainer_init (args_of 1 [batch3] None None "+loss").

(** The loss of one batch in evaluation mode, as a function of the model's
    parameters: what [batch_loss] computes, without the metric update. *)
Definition eval_loss (C : Collaborators) (t : Trainer) (b : batch)
  : result pyval :=
  inputs <~ batch_inputs (padding_idx (conf t)) (TEXT b) ;;
  let '(data, lens, mask) := inputs in
  res <~ model_call C (model t) false data lens mask (batch_label (LABEL b)) ;;
  logits <~ getitem res "logits" ;;
  loss_of_result C res logits (batch_label (LABEL b)).

(** A loss as [batch_loss] returns it: a scalar, or [None]. *)
Definition loss_value (o : option pyfloat) : pyval :=
  match o with
  | Some f => VFloat f
  | None => VNone
  end.

(** The iterator [val_epoch] walks in the given mode. *)
Definition data_iter_of (mode : string) (t : Trainer) : option (list batch) :=
  if decide (mode = "val") then val_iter (conf t) else test_iter (conf t).

(** A trainer with two validation batches. *)
Definition validating_trainer : Trainer :=
  Trainer_init (args_of 3 [batch3] (Some [batch3; batch3]) (Some 1) "+loss").

(** The training state that [save_checkpoint] hands to the checkpointer, as
    it comes back from storage. *)
Definition stored_state (epoch : Z) (t : Trainer) : gmap string pyval :=
  <["epoch" := VInt epoch]> (training_states_of t).

(** A trainer whose tracker has seen one validation metric, the same
    trainer after it saved the checkpoint of epoch 4, and a fresh trainer
    started on the storage it left. *)
Definition tracked_trainer : Trainer :=
  set_metric_tracker (add_metric (FNum (1 # 2)) (metric_tracker fresh_trainer))
                     fresh_trainer.

Definition saved_trainer : Trainer := snd (save_checkpoint 4 tracked_trainer).

Definition resuming_trainer : Trainer :=
  set_checkpointer (checkpointer saved_trainer) fresh_trainer.

(** A fresh trainer started on a storage whose snapshot cannot be loaded. *)
Definition corrupt_trainer : Trainer :=
  set_checkpointer (mkCheckpointer (Some 20%nat) [(0, Unreadable)] None)
                   fresh_trainer.

(** What holds of the value and the trainer when a computation returns. *)
Definition ensures {A} (m : M A) (t : Trainer) (Q : A -> Trainer -> Prop)
  : Prop :=
  match m t with
  | (Ok a, t') => Q a t'
  | (Raise _, _) => True
  end.

(** Collaborators whose model reports its first parameter as the loss: the
    loss goes down by one with every optimizer step. *)
Definition descending : Collaborators :=
  collaborators_of (model_with_loss first_param).

(** Three epochs with validation, patience 1, and a metric that counts as
    better when it is higher: the validation loss of the second epoch is
    lower than that of the first, so patience runs out there. *)
Definition early_trainer : Trainer :=
  Trainer_init (args_of 3 [batch3] (Some [batch3]) (Some 1) "+loss").

Definition flow_or (l : locals) (r : result flow) : flow :=
  match r with
  | Ok f => f
  | Raise _ => Next l
  end.

Definition start_locals (t : Trainer) : locals :=
  mkLocals (initial_metrics t) 0 None None.

(** The first two turns of the epoch loop of that run. *)
Definition epoch0 : result flow * Trainer :=
  learn_epoch descending 0 0 (start_locals early_trainer)
              (begin_training early_trainer).

Definition epoch1 : result flow * Trainer :=
  learn_epoch descending 0 1
              (locals_of (flow_or (start_locals early_trainer) (fst epoch0)))
              (snd epoch0).

(** Collaborators whose model reports NaN once its first parameter is 3. *)
Definition diverging : Collaborators :=
  collaborators_of (model_with_loss nan_at_three).

(** Collaborators whose model reports NaN in evaluation mode only. *)
Definition nan_in_validation : Collaborators :=
  collaborators_of (model_with_loss nan_when_evaluating).

(** Three epochs of two batches with validation, no patience. *)
Definition long_trainer : Trainer :=
  Trainer_init (args_of 3 [batch3; batch3] (Some [batch3]) None "-loss").

(** The run of [diverging] on [long_trainer]: the first epoch, and the
    trainer when the batch loop of the second epoch starts. *)
Definition long_epoch0 : result flow * Trainer :=
  learn_loop diverging 0 [0] (start_locals long_trainer)
             (begin_training long_trainer).

Definition long_epoch1_start : Trainer := begin_epoch 1 (snd long_epoch0).

Definition long_epoch1_batch : result pyval * Trainer :=
  batch_loss diverging batch3 (snd (incr_batch_num_total long_epoch1_start)).

(** One epoch on one batch with validation. *)
Definition short_trainer : Trainer :=
  Trainer_init (args_of 1 [batch3] (Some [batch3]) None "-loss").

(** The value of a result, or a default when it raised. *)
Definition value_or {A} (d : A) (r : result A) : A :=
  match r with
  | Ok a => a
  | Raise _ => d
  end.

(** The first training pass of [fresh_trainer]. *)
Definition first_pass : result (gmap string pyfloat) * Trainer :=
  train_epoch descending 0 fresh_trainer.

(** A fresh trainer started on a storage whose training state holds the
    epoch and nothing else. *)
Definition half_saved_trainer : Trainer :=
  set_checkpointer
    (mkCheckpointer (Some 20%nat)
                    [(0, Snapshot [9] (<["epoch" := VInt 0]> ∅))] None)
    fresh_trainer.

(** [int] on a string of decimal digits. *)
Fixpoint digits_value (acc : Z) (s : string) : option Z :=
  match s with
  | EmptyString => Some acc
  | String c rest =>
      let n := Z.of_nat (nat_of_ascii c) in
      if (48 <=? n) && (n <=? 57)
      then digits_value (acc * 10 + (n - 48)) rest
      else None
  end.

Definition int_of_digits (s : string) : result Z :=
  match s with
  | EmptyString => Raise (ValueError "invalid literal for int()")
  | _ =>
      match digits_value 0 s with
      | Some n => Ok n
      | None => Raise (ValueError "invalid literal for int()")
      end
  end.

(** [descending] with [int] reading decimal digits. *)
Definition descending_with_int : Collaborators :=
  mkCollaborators (model_call descending) (loss_func descending)
                  (metric_compute descending) (backward_step descending)
                  (scheduler_step descending) (training_duration descending)
                  int_of_digits.

(** The characters of a string. *)
Fixpoint chars (s : string) : list ascii :=
  match s with
  | EmptyString => []
  | String c rest => c :: chars rest
  end.

(** A trainer with another serialization directory. *)
Definition with_serialization_dir (d : option string) (t : Trainer) : Trainer :=
  mkTrainer
    (mkConf (num_epochs (conf t)) (train_iter (conf t)) (val_iter (conf t))
            (test_iter (conf t)) d (sequence_model (conf t))
            (label_index (conf t)) (padding_idx (conf t))
            (validation_metric (conf t)) (fields (conf t))
            (cuda_device (conf t)))
    (model t) (model_training t) (optimizer t) (learning_rate_scheduler t)
    (metric t) (metric_tracker t) (checkpointer t) (batch_num_total t)
    (logged t).

(** [short_trainer] as the constructor builds it by default, without a
    serialization directory. *)
Definition homeless_trainer : Trainer :=
  with_serialization_dir None short_trainer.

(** The locals of a turn whose validation gave the metric 1/2, and the end
    of that turn for [tracked_trainer]. *)
Definition validated_locals : locals :=
  mkLocals (<["best_epoch" := VNone]> ∅) 0
           (Some (<["loss" := FNum (1 # 2)]> ∅)) (Some (FNum (1 # 2))).

Definition finished_turn : result locals * Trainer :=
  finish_epoch descending 0 0 (<["loss" := FNum 5]> ∅) validated_locals
               tracked_trainer.

(** A model that supplies its own loss but fails, as a device would, once
    its first parameter is 3 in training mode. *)
Definition model_breaking_at_three
  : state_blob -> bool -> tensor -> option tensor -> tensor -> tensor
    -> result (gmap string pyval) :=
  fun params training data lens mask label =>
    if training && (hd 0 params =? 3) then Raise RuntimeError
    else model_with_loss first_param params training data lens mask label.

Definition breaking : Collaborators := collaborators_of model_breaking_at_three.

(** The run of [breaking] on [long_trainer]: the first epoch, and the
    trainer when the batch loop of the second epoch starts. *)
Definition breaking_epoch0 : result flow * Trainer :=
  learn_loop breaking 0 [0] (start_locals long_trainer)
             (begin_training long_trainer).

Definition breaking_epoch1_start : Trainer := begin_epoch 1 (snd breaking_epoch0).

(** The first validation branch of [early_trainer]. *)
Definition first_validation
  : result (bool * option (gmap string pyfloat) * option pyfloat) * Trainer :=
  validate descending (start_locals early_trainer) early_trainer.

(** A trainer with a test iterator whose storage holds best weights that
    differ from the weights in the model. *)
Definition tested_trainer : Trainer :=
  mkTrainer
    (mkConf 1 [batch3] None (Some [batch3; batch3]) (Some "out") false 1 1
            "loss" (Some ([], [])) (-1))
    [5] true [] None [] (MetricTracker_init None "-loss")
    (mkCheckpointer (Some 20%nat) [] (Some [8])) (VInt 0) [].

(** A model whose result holds a ["loss"] entry that is [None]. *)
Definition res_loss_none : gmap string pyval :=
  <["logits" := VLogits []]> (<["loss" := VNone]> ∅).

Definition silent : Collaborators := collaborators_of (model_with res_loss_none).

(** A computation leaves an observation [f] of the trainer as it found it,
    whether it returns or raises. *)
Definition preserves {A B} (f : Trainer -> A) (m : M B) : Prop :=
  forall t, f (snd (m t)) = f t.

(** * Properties *)

(** ** The monad *)

Lemma bind_ok {A B} (m : M A) (k : A -> M B) t a t' :
  m t = (Ok a, t') -> bind m k t = k a t'.
Proof. intros H. unfold bind. now rewrite H. Qed.

Lemma bind_raise {A B} (m : M A) (k : A -> M B) t e t' :
  m t = (Raise e, t') -> bind m k t = (Raise e, t').
Proof. intros H. unfold bind. now rewrite H. Qed.

Lemma preserves_ret {A B} (f : Trainer -> A) (b : B) : preserves f (ret b).
Proof. now intros t. Qed.

Lemma preserves_raise {A B} (f : Trainer -> A) e : preserves f (@raise B e).
Proof. now intros t. Qed.

Lemma preserves_lift {A B} (f : Trainer -> A) (r : result B) :
  preserves f (lift r).
Proof. now intros t. Qed.

Lemma preserves_get {A} (f : Trainer -> A) : preserves f get.
Proof. now intros t. Qed.

Lemma preserves_modify {A} (f : Trainer -> A) g :
  (forall t, f (g t) = f t) -> preserves f (modify g).
Proof. intros H t. apply H. Qed.

Lemma preserves_bind {A B D} (f : Trainer -> A) (m : M B) (k : B -> M D) :
  preserves f m -> (forall b, preserves f (k b)) -> preserves f (bind m k).
Proof.
  intros Hm Hk t. unfold bind.
  destruct (m t) as [[b|e] t'] eqn:E.
  - rewrite Hk. specialize (Hm t). now rewrite E in Hm.
  - specialize (Hm t). now rewrite E in Hm.
Qed.

Lemma preserves_except {A B} (f : Trainer -> A) (m : M B) e :
  preserves f m -> preserves f (except_RuntimeError m e).
Proof.
  intros Hm t. unfold except_RuntimeError. specialize (Hm t).
  destruct (m t) as [[b|[]] t']; exact Hm.
Qed.

(** Takes a [preserves] goal apart along the shape of the computation. *)
Ltac frame_step :=
  first
    [ apply preserves_ret
    | apply preserves_raise
    | apply preserves_lift
    | apply preserves_get
    | apply preserves_modify; intros; reflexivity
    | apply preserves_bind; [ | intros ]
    | match goal with
      | |- preserves _ (match ?x with _ => _ end) => destruct x
      end ].

Ltac frame := repeat frame_step.

(** ** Floats *)

Lemma denominator_nonzero (batchs : Z) :
  is_fzero (fadd (float_of_int batchs) (FNum eps8)) = false.
Proof.
  simpl. apply not_true_is_false. intros H.
  apply Qeq_bool_eq in H. unfold Qeq in H. simpl in H. lia.
Qed.

Lemma loss_metric_total (loss : pyfloat) (batchs : Z) :
  loss_metric loss batchs =
  Ok (if fgt loss fzero
      then fquot loss (fadd (float_of_int batchs) (FNum eps8))
      else fzero).
Proof.
  unfold loss_metric, fdiv. rewrite denominator_nonzero.
  now destruct (fgt loss fzero).
Qed.

(** ** [get_metrics] *)

(** C10: [get_metrics] never raises [ZeroDivisionError]: for every
    cumulative loss and every batch count, zero included, the denominator
    [batchs + 1e-8] is not zero, and the reported ["loss"] is [0.0] when the
    cumulative loss is not strictly positive and the quotient of the
    cumulative loss by [batchs + 1e-8] otherwise. *)
Theorem get_metrics_loss_never_divides_by_zero
    (C : Collaborators) (loss : pyfloat) (batchs : Z) (reset : bool)
    (t : Trainer) :
  is_fzero (fadd (float_of_int batchs) (FNum eps8)) = false /\
  get_metrics C loss batchs reset t =
    (Ok (<["loss" := if fgt loss fzero
                     then fquot loss (fadd (float_of_int batchs) (FNum eps8))
                     else fzero]> (metric_compute C (metric t))),
     if reset then set_metric [] t else t) /\
  (forall q : Q,
     loss_metric (FNum q) batchs =
     Ok (FNum (if Qltb 0 q then q / (inject_Z batchs + eps8) else 0)%Q)) /\
  loss_metric FNaN batchs = Ok fzero.
Proof.
  split; [apply denominator_nonzero|].
  split; [|split].
  - unfold get_metrics, bind, get, lift, ret, modify.
    rewrite loss_metric_total. now destruct reset.
  - intros q. rewrite loss_metric_total. simpl. now destruct (Qltb 0 q).
  - apply loss_metric_total.
Qed.

(** ** The validation metric key *)

Lemma validate_lookup (C : Collaborators) (l : locals) (t : Trainer)
    batches r t1 vm t2 :
  val_iter (conf t) = Some batches ->
  val_epoch C "val" t = (Ok r, t1) ->
  get_metrics C (fst r) (snd r) true t1 = (Ok vm, t2) ->
  fst (validate C l t) =
  match vm !! validation_metric (conf t) with
  | Some v => Ok (should_stop_early (add_metric v (metric_tracker t2)),
                  Some vm, Some v)
  | None => Raise (KeyError (validation_metric (conf t)))
  end.
Proof.
  intros Hit Hval Hget.
  unfold validate. unfold bind at 1. unfold get at 1. rewrite Hit.
  rewrite (bind_ok _ _ _ _ _ Hval), (bind_ok _ _ _ _ _ Hget).
  unfold bind at 1. unfold lift, getitem.
  destruct (vm !! validation_metric (conf t)) as [v|]; [|reflexivity].
  unfold bind, modify, get, ret. simpl.
  now destruct (should_stop_early (add_metric v (metric_tracker t2))).
Qed.

(** C9: the trainer drops the first character of the configured
    [validation_metric], whatever that character is, and looks the
    validation results up under what remains; a name without a sign marker
    loses its first letter. *)
Theorem validation_metric_key_drops_first_char
    (a : TrainerArgs) (c : ascii) (rest : string) :
  arg_validation_metric a = String c rest ->
  validation_metric (conf (Trainer_init a)) = rest /\
  forall (C : Collaborators) (l : locals) (t : Trainer) batches r t1 vm t2,
    conf t = conf (Trainer_init a) ->
    val_iter (conf t) = Some batches ->
    val_epoch C "val" t = (Ok r, t1) ->
    get_metrics C (fst r) (snd r) true t1 = (Ok vm, t2) ->
    fst (validate C l t) =
    match vm !! rest with
    | Some v => Ok (should_stop_early (add_metric v (metric_tracker t2)),
                    Some vm, Some v)
    | None => Raise (KeyError rest)
    end.
Proof.
  intros Hname.
  assert (Hkey : validation_metric (conf (Trainer_init a)) = rest).
  { simpl. now rewrite Hname. }
  split; [exact Hkey|].
  intros C l t batches r t1 vm t2 Hconf Hit Hval Hget.
  rewrite (validate_lookup C l t batches r t1 vm t2 Hit Hval Hget).
  now rewrite Hconf, Hkey.
Qed.

Lemma validation_metric_key_drops_first_char_witness :
  validation_metric
    (conf (Trainer_init (args_of 1 [batch3] (Some [batch3]) None "f1_measure")))
  = "1_measure".
Proof.
  exact (proj1 (validation_metric_key_drops_first_char
                  (args_of 1 [batch3] (Some [batch3]) None "f1_measure")
                  "f"%char "1_measure" eq_refl)).
Defined.

(** ** [batch_loss] *)






(** ** The mask *)

Lemma mask_row_length (seq_len : nat) (len : Z) :
  length (mask_row seq_len len) = seq_len.
Proof. unfold mask_row. now rewrite length_map, length_seq. Qed.

Lemma mask_row_nth (seq_len : nat) (len : Z) (j : nat) :
  (j < seq_len)%nat ->
  nth j (mask_row seq_len len) 0 = if Z.of_nat j <? len then 1 else 0.
Proof.
  intros Hj. unfold mask_row.
  rewrite (nth_indep _ 0 ((fun j => if Z.of_nat j <? len then 1 else 0) O))
    by now rewrite length_map, length_seq.
  rewrite (map_nth (fun j => if Z.of_nat j <? len then 1 else 0)).
  now rewrite seq_nth.
Qed.

Example generate_mask_3_1_4 :
  generate_mask (T1 [3; 1; 4]) 4 3
  = Ok (T2 [[1; 1; 1; 0]; [1; 0; 0; 0]; [1; 1; 1; 1]]).
Proof. reflexivity. Qed.

(** With lengths the mask of [batch_loss] is the specified one. *)
Lemma batch_inputs_with_lengths (padding : Z) (d lengths : tensor) :
  rbind (batch_inputs padding (TextPair d lengths)) (fun i => Ok (snd i))
  = specified_mask padding (TextPair d lengths).
Proof.
  unfold batch_inputs, specified_mask. simpl.
  destruct (tensor_size (tensor_t d) 1); simpl; [|reflexivity].
  destruct (tensor_size (tensor_t d) 0); simpl; [|reflexivity].
  now destruct (generate_mask lengths a a0).
Qed.

(** Without lengths it is the specified one as long as the text tensor does
    not have two rows. *)
Lemma batch_inputs_without_lengths (padding : Z) (d : tensor) (n : nat) :
  tensor_len d = Ok n -> n <> 2%nat ->
  batch_inputs padding (TextTensor d)
  = Ok (tensor_t d, None, tensor_ne_long (tensor_t d) padding).
Proof.
  intros Hlen Hn. unfold batch_inputs. simpl. rewrite Hlen. simpl.
  destruct (Nat.eqb_spec n 2); [contradiction|reflexivity].
Qed.

(** C6: a batch without lengths whose text tensor has two rows (sentences
    padded to two tokens) is taken for a pair of data and lengths: the
    specified mask compares the token ids with the padding index, and
    [batch_loss] raises [IndexError] before any mask is built. *)
Theorem batch_loss_two_token_batch :
  text_len (TEXT batch2) = Ok 2%nat /\
  batch_inputs 1 (TEXT batch2) = Raise IndexError /\
  specified_mask 1 (TEXT batch2) = Ok (T2 [[1; 0]; [1; 1]]) /\
  fst (batch_loss (collaborators_of (model_with_loss first_param))
                  batch2 fresh_trainer)
  = Raise IndexError.
Proof. repeat split; vm_compute; reflexivity. Qed.

(** ** What the batch methods leave alone *)

Create HintDb frame.

Ltac frame_with := repeat first [ solve [ auto with frame ] | frame_step ].

Lemma batch_loss_conf C b : preserves conf (batch_loss C b).
Proof. unfold batch_loss. frame. Qed.

Lemma batch_loss_model C b : preserves model (batch_loss C b).
Proof. unfold batch_loss. frame. Qed.

Lemma batch_loss_model_training C b : preserves model_training (batch_loss C b).
Proof. unfold batch_loss. frame. Qed.

Lemma batch_loss_optimizer C b : preserves optimizer (batch_loss C b).
Proof. unfold batch_loss. frame. Qed.

Lemma batch_loss_checkpointer C b : preserves checkpointer (batch_loss C b).
Proof. unfold batch_loss. frame. Qed.

Lemma batch_loss_metric_tracker C b : preserves metric_tracker (batch_loss C b).
Proof. unfold batch_loss. frame. Qed.

#[export] Hint Resolve batch_loss_conf batch_loss_model batch_loss_model_training
  batch_loss_optimizer batch_loss_checkpointer batch_loss_metric_tracker : frame.

Lemma val_batches_model C bs vl n : preserves model (val_batches C bs vl n).
Proof. revert vl n. induction bs; intros vl n; simpl; frame_with. Qed.

Lemma val_batches_optimizer C bs vl n :
  preserves optimizer (val_batches C bs vl n).
Proof. revert vl n. induction bs; intros vl n; simpl; frame_with. Qed.

Lemma val_batches_checkpointer C bs vl n :
  preserves checkpointer (val_batches C bs vl n).
Proof. revert vl n. induction bs; intros vl n; simpl; frame_with. Qed.

Lemma val_batches_metric_tracker C bs vl n :
  preserves metric_tracker (val_batches C bs vl n).
Proof. revert vl n. induction bs; intros vl n; simpl; frame_with. Qed.

#[export] Hint Resolve val_batches_model val_batches_optimizer
  val_batches_checkpointer val_batches_metric_tracker : frame.

Lemma val_epoch_model C mode : preserves model (val_epoch C mode).
Proof. unfold val_epoch. frame_with. Qed.

Lemma val_epoch_optimizer C mode : preserves optimizer (val_epoch C mode).
Proof. unfold val_epoch. frame_with. Qed.

Lemma val_epoch_checkpointer C mode : preserves checkpointer (val_epoch C mode).
Proof. unfold val_epoch. frame_with. Qed.

Lemma val_epoch_metric_tracker C mode :
  preserves metric_tracker (val_epoch C mode).
Proof. unfold val_epoch. frame_with. Qed.

Lemma get_metrics_checkpointer C loss n reset :
  preserves checkpointer (get_metrics C loss n reset).
Proof. unfold get_metrics. frame_with. Qed.

Lemma get_metrics_metric_tracker C loss n reset :
  preserves metric_tracker (get_metrics C loss n reset).
Proof. unfold get_metrics. frame_with. Qed.

#[export] Hint Resolve val_epoch_model val_epoch_optimizer
  val_epoch_checkpointer val_epoch_metric_tracker
  get_metrics_checkpointer get_metrics_metric_tracker : frame.

(** ** [val_epoch] *)

Lemma batch_loss_eval C b t :
  model_training t = false -> fst (batch_loss C b t) = eval_loss C t b.
Proof.
  intros Hmode. unfold batch_loss, eval_loss, bind, get, lift, modify, ret.
  destruct (batch_inputs (padding_idx (conf t)) (TEXT b))
    as [[[data lens] mask]|e]; simpl; [|reflexivity].
  rewrite Hmode.
  destruct (model_call C (model t) false data lens mask (batch_label (LABEL b)))
    as [res|e]; simpl; [|reflexivity].
  destruct (getitem res "logits") as [logits|e]; simpl; [|reflexivity].
  now destruct (loss_of_result C res logits (batch_label (LABEL b))).
Qed.

Lemma eval_loss_ext C t t' b :
  conf t' = conf t -> model t' = model t -> eval_loss C t' b = eval_loss C t b.
Proof. intros Hc Hm. unfold eval_loss. now rewrite Hc, Hm. Qed.

Lemma val_batches_result C batches :
  forall outs vl n t,
    model_training t = false ->
    Forall2 (fun b o => eval_loss C t b = Ok (loss_value o)) batches outs ->
    fst (val_batches C batches vl n t)
    = Ok (fold_left fadd (omap id outs) vl,
          n + Z.of_nat (length (omap id outs))).
Proof.
  induction batches as [|b bs IH]; intros outs vl n t Hmode Hall;
    inversion Hall as [|? o ? outs' Hb Hrest]; subst.
  - simpl. now rewrite Z.add_0_r.
  - simpl val_batches. unfold bind at 1.
    pose proof (batch_loss_eval C b t Hmode) as Hfst.
    pose proof (batch_loss_conf C b t) as Hconf.
    pose proof (batch_loss_model C b t) as Hmodel.
    pose proof (batch_loss_model_training C b t) as Htr.
    destruct (batch_loss C b t) as [r t1]. simpl in Hfst, Hconf, Hmodel, Htr.
    rewrite Hb in Hfst. subst r. rewrite Hmode in Htr.
    assert (Hrest1 : Forall2 (fun b o => eval_loss C t1 b = Ok (loss_value o))
                             bs outs').
    { eapply Forall2_impl; [exact Hrest|]. intros b' o' H'.
      now rewrite (eval_loss_ext C t t1 b' Hconf Hmodel). }
    destruct o as [f|].
    + change (omap id (Some f :: outs')) with (f :: omap id outs').
      cbn [loss_value fold_left length].
      rewrite (IH outs' _ _ t1 Htr Hrest1), Nat2Z.inj_succ.
      f_equal. f_equal. lia.
    + change (omap id (None :: outs')) with (omap id outs').
      cbn [loss_value].
      now rewrite (IH outs' _ _ t1 Htr Hrest1).
Qed.

Lemma val_epoch_result (C : Collaborators) (mode : string) (t : Trainer)
    batches outs :
  data_iter_of mode t = Some batches ->
  Forall2 (fun b o => eval_loss C t b = Ok (loss_value o)) batches outs ->
  fst (val_epoch C mode t)
  = Ok (fold_left fadd (omap id outs) fzero,
        Z.of_nat (length (omap id outs))).
Proof.
  intros Hiter Hall.
  unfold data_iter_of in Hiter.
  unfold val_epoch, bind, get, modify.
  destruct (decide (mode = "val")); simpl; rewrite Hiter;
    (rewrite (val_batches_result C batches outs);
     [reflexivity | reflexivity |
      eapply Forall2_impl; [exact Hall|]; intros b o H;
      rewrite <- H; now apply eval_loss_ext]).
Qed.

Lemma omap_id_Some {A} (l : list A) : omap id (map Some l) = l.
Proof. induction l as [|x l IH]; [reflexivity|]. cbn. now rewrite IH. Qed.

(** C8, amended: for every sequence of batches [val_epoch] leaves the
    model's parameters and the optimizer's state as they were, whether it
    returns or raises, and it returns the sum of the losses of the batches
    whose loss is not [None] together with the number of those batches; that
    number is the number of batches processed when every batch has a
    loss. *)
Theorem val_epoch_no_update
    (C : Collaborators) (mode : string) (t : Trainer) :
  model (snd (val_epoch C mode t)) = model t /\
  optimizer (snd (val_epoch C mode t)) = optimizer t /\
  (forall batches outs,
     data_iter_of mode t = Some batches ->
     Forall2 (fun b o => eval_loss C t b = Ok (loss_value o)) batches outs ->
     fst (val_epoch C mode t)
     = Ok (fold_left fadd (omap id outs) fzero,
           Z.of_nat (length (omap id outs)))) /\
  (forall batches losses,
     data_iter_of mode t = Some batches ->
     Forall2 (fun b f => eval_loss C t b = Ok (VFloat f)) batches losses ->
     fst (val_epoch C mode t)
     = Ok (fold_left fadd losses fzero, Z.of_nat (length batches))).
Proof.
  split; [apply val_epoch_model|].
  split; [apply val_epoch_optimizer|].
  split; [intros batches outs; apply val_epoch_result|].
  intros batches losses Hiter Hall.
  rewrite (val_epoch_result C mode t batches (map Some losses) Hiter).
  - rewrite omap_id_Some. now rewrite (Forall2_length _ _ _ Hall).
  - clear Hiter. induction Hall; constructor; assumption.
Qed.

(** C8 as stated fails: the model answers both validation batches with a
    loss that is [None]; both batches are processed, each updates the
    metric, and [val_epoch] returns the count 0. *)
Lemma val_epoch_skips_none_losses :
  data_iter_of "val" validating_trainer = Some [batch3; batch3] /\
  eval_loss silent validating_trainer batch3 = Ok VNone /\
  fst (val_epoch silent "val" validating_trainer) = Ok (fzero, 0) /\
  length (metric (snd (val_epoch silent "val" validating_trainer))) = 2%nat.
Proof. repeat split; vm_compute; reflexivity. Qed.

Lemma val_epoch_no_update_witness :
  fst (val_epoch (collaborators_of (model_with_loss first_param)) "val"
                 validating_trainer)
  = Ok (fold_left fadd [FNum 5; FNum 5] fzero, 2).
Proof.
  destruct (val_epoch_no_update
              (collaborators_of (model_with_loss first_param)) "val"
              validating_trainer) as (_ & _ & H & _).
  apply (H [batch3; batch3] [Some (FNum 5); Some (FNum 5)]).
  - reflexivity.
  - repeat constructor.
Defined.

(** ** Saving and restoring a checkpoint *)

Lemma last_prune_snoc {A} (keep : option nat) (l : list A) (x : A) :
  keep <> Some 0%nat -> last (prune keep (l ++ [x])) = Some x.
Proof.
  intros Hkeep. destruct keep as [[|k]|]; [congruence| |apply last_snoc].
  unfold prune. rewrite drop_app_le.
  - apply last_snoc.
  - rewrite length_app. simpl. lia.
Qed.

Lemma stored_state_epoch E t : stored_state E t !! "epoch" = Some (VInt E).
Proof. unfold stored_state. now simplify_map_eq. Qed.

Lemma stored_state_optimizer E t :
  stored_state E t !! "optimizer" = Some (VBlob (optimizer t)).
Proof.
  unfold stored_state, training_states_of.
  destruct (learning_rate_scheduler t); now simplify_map_eq.
Qed.

Lemma stored_state_batch_num_total E t :
  stored_state E t !! "batch_num_total" = Some (batch_num_total t).
Proof.
  unfold stored_state, training_states_of.
  destruct (learning_rate_scheduler t); now simplify_map_eq.
Qed.

Lemma stored_state_scheduler E t :
  stored_state E t !! "learning_rate_scheduler"
  = VBlob <$> learning_rate_scheduler t.
Proof.
  unfold stored_state, training_states_of.
  destruct (learning_rate_scheduler t); now simplify_map_eq.
Qed.

(** The tracker is written under ["metric_traceker"] ... *)
Lemma stored_state_metric_traceker E t :
  stored_state E t !! "metric_traceker"
  = Some (VTracker (tracked (metric_tracker t))).
Proof.
  unfold stored_state, training_states_of.
  destruct (learning_rate_scheduler t); now simplify_map_eq.
Qed.

(** ... and nothing is written under the keys that [restore_checkpoint]
    reads it from. *)
Lemma stored_state_metric_tracker E t :
  stored_state E t !! "metric_tracker" = None.
Proof.
  unfold stored_state, training_states_of.
  destruct (learning_rate_scheduler t); now simplify_map_eq.
Qed.

Lemma stored_state_val_metric_per_epoch E t :
  stored_state E t !! "val_metric_per_epoch" = None.
Proof.
  unfold stored_state, training_states_of.
  destruct (learning_rate_scheduler t); now simplify_map_eq.
Qed.

Lemma restore_saved (t0 : Trainer) (E : Z) :
  num_serialized_models_to_keep (checkpointer t0) <> Some 0%nat ->
  Checkpointer_restore (checkpointer (snd (save_checkpoint E t0)))
  = Ok (Some (model t0), Some (stored_state E t0)).
Proof.
  intros Hkeep. unfold save_checkpoint, modify, Checkpointer_restore,
    Checkpointer_save. simpl.
  now rewrite (last_prune_snoc _ _ _ Hkeep).
Qed.

Lemma restore_from_stored C (t0 t : Trainer) (E : Z) :
  let r := restore_from C (Some (model t0)) (Some (stored_state E t0)) t in
  fst r = Ok (E + 1) /\
  model (snd r) = model t0 /\
  optimizer (snd r) = optimizer t0 /\
  metric_tracker (snd r) = tracker_clear (metric_tracker t).
Proof.
  unfold restore_from.
  destruct (decide (stored_state E t0 = ∅)) as [Hempty|_].
  { exfalso. revert Hempty. apply insert_non_empty. }
  unfold bind, lift, modify, get, ret, getitem, rbind, restore_tracker,
    epoch_to_return.
  cbn beta iota.
  rewrite stored_state_optimizer. cbn. unfold rbind, getitem.
  rewrite stored_state_metric_tracker, stored_state_val_metric_per_epoch,
    stored_state_epoch, stored_state_batch_num_total, stored_state_scheduler.
  destruct (learning_rate_scheduler t), (learning_rate_scheduler t0),
    (batch_num_total t0); cbn; now repeat split.
Qed.

Lemma restore_checkpoint_unfold C (t : Trainer) :
  restore_checkpoint C t =
  match Checkpointer_restore (checkpointer t) with
  | Ok r => restore_from C (fst r) (snd r) t
  | Raise e => (Raise e, t)
  end.
Proof. reflexivity. Qed.

(** Restoring what [save_checkpoint] wrote succeeds with the next epoch, the
    saved weights and optimizer state, and a cleared tracker. *)
Lemma restore_after_save C (t0 t : Trainer) (E : Z) :
  num_serialized_models_to_keep (checkpointer t0) <> Some 0%nat ->
  checkpointer t = checkpointer (snd (save_checkpoint E t0)) ->
  fst (restore_checkpoint C t) = Ok (E + 1) /\
  model (snd (restore_checkpoint C t)) = model t0 /\
  optimizer (snd (restore_checkpoint C t)) = optimizer t0 /\
  metric_tracker (snd (restore_checkpoint C t))
  = tracker_clear (metric_tracker t).
Proof.
  intros Hkeep Hcp.
  rewrite restore_checkpoint_unfold, Hcp, (restore_saved t0 E Hkeep).
  apply restore_from_stored.
Qed.

Lemma restore_from_epoch C ms (ts : gmap string pyval) (E : Z) (t : Trainer) :
  ts !! "epoch" = Some (VInt E) ->
  match fst (restore_from C ms (Some ts) t) with
  | Ok n => n = E + 1
  | Raise _ => True
  end.
Proof.
  intros He. unfold restore_from.
  destruct (decide (ts = ∅)) as [->|_]; [now rewrite lookup_empty in He|].
  unfold bind, lift, modify, get, ret, epoch_to_return, getitem, rbind.
  rewrite He. cbn.
  repeat (match goal with
          | |- context [match ?x with _ => _ end] =>
              lazymatch x with
              | context [match _ with _ => _ end] => fail
              | _ => destruct x
              end
          end; cbn; try exact I; try reflexivity).
Qed.

(** C7: [restore_checkpoint] returns 0, and touches nothing, when there is
    no checkpoint on stable storage; when the checkpoint of epoch [E] is
    there and is loaded successfully it returns [E + 1], which is the case
    for what [save_checkpoint] wrote; and a snapshot that the checkpointer
    cannot load makes [learn] fail before any epoch runs, with the error of
    line 136 when the checkpointer raised [RuntimeError] and with the
    checkpointer's error otherwise. *)
Theorem restore_checkpoint_next_epoch (C : Collaborators) (t : Trainer) :
  (snapshots (checkpointer t) = [] -> restore_checkpoint C t = (Ok 0, t)) /\
  (forall ms ts E,
     Checkpointer_restore (checkpointer t) = Ok (ms, Some ts) ->
     ts !! "epoch" = Some (VInt E) ->
     is_ok (fst (restore_checkpoint C t)) = true ->
     fst (restore_checkpoint C t) = Ok (E + 1)) /\
  (forall t0 E,
     num_serialized_models_to_keep (checkpointer t0) <> Some 0%nat ->
     checkpointer t = checkpointer (snd (save_checkpoint E t0)) ->
     fst (restore_checkpoint C t) = Ok (E + 1)) /\
  (forall e,
     Checkpointer_restore (checkpointer t) = Raise e ->
     learn C t
     = (Raise match e with
              | RuntimeError => PyException could_not_recover
              | _ => e
              end, t)).
Proof.
  repeat split.
  - intros Hnone. rewrite restore_checkpoint_unfold.
    unfold Checkpointer_restore. now rewrite Hnone.
  - intros ms ts E Hr He Hok.
    rewrite restore_checkpoint_unfold, Hr in Hok |- *. cbn [fst snd] in *.
    pose proof (restore_from_epoch C ms ts E t He) as H.
    destruct (fst (restore_from C ms (Some ts) t)); [now subst|discriminate].
  - intros t0 E Hkeep Hcp.
    now destruct (restore_after_save C t0 t E Hkeep Hcp).
  - intros e Hr. unfold learn. apply bind_raise.
    unfold except_RuntimeError.
    rewrite restore_checkpoint_unfold, Hr. now destruct e.
Qed.

Lemma restore_checkpoint_next_epoch_witness :
  restore_checkpoint (collaborators_of (model_with_loss first_param))
                     fresh_trainer
  = (Ok 0, fresh_trainer) /\
  fst (restore_checkpoint (collaborators_of (model_with_loss first_param))
                          resuming_trainer)
  = Ok 5 /\
  learn (collaborators_of (model_with_loss first_param)) corrupt_trainer
  = (Raise (PyException could_not_recover), corrupt_trainer).
Proof.
  split; [|split].
  - apply (proj1 (restore_checkpoint_next_epoch _ fresh_trainer)).
    reflexivity.
  - apply (proj1 (proj2 (restore_checkpoint_next_epoch _ resuming_trainer))
             (Some (model tracked_trainer)) (stored_state 4 tracked_trainer) 4).
    + vm_compute. reflexivity.
    + vm_compute. reflexivity.
    + vm_compute. reflexivity.
  - apply (proj2 (proj2 (proj2 (restore_checkpoint_next_epoch _ corrupt_trainer)))
             RuntimeError).
    reflexivity.
Defined.

(** C1: saving the checkpoint of epoch 4 and restoring it on the storage
    does not bring the tracker back: [save_checkpoint] writes the tracker
    under ["metric_traceker"], [restore_checkpoint] looks for
    ["metric_tracker"], finds nothing and clears the tracker.  The history,
    the best value and the best epoch of save time are lost. *)
Theorem save_restore_loses_metric_tracker :
  let C := collaborators_of (model_with_loss first_param) in
  tracked (metric_tracker tracked_trainer)
  = TrackerState [FNum (1 # 2)] (Some (FNum (1 # 2))) (Some 0) 0 /\
  stored_state 4 tracked_trainer !! "metric_traceker"
  = Some (VTracker (tracked (metric_tracker tracked_trainer))) /\
  stored_state 4 tracked_trainer !! "metric_tracker" = None /\
  fst (restore_checkpoint C resuming_trainer) = Ok 5 /\
  tracked (metric_tracker (snd (restore_checkpoint C resuming_trainer)))
  = TrackerState [] None None 0 /\
  tracked (metric_tracker (snd (restore_checkpoint C saved_trainer)))
  = TrackerState [] None None 0.
Proof. repeat split; vm_compute; reflexivity. Qed.

(** ** Postconditions *)

Lemma ensures_bind {A B} (m : M A) (k : A -> M B) t (Q : B -> Trainer -> Prop) :
  ensures m t (fun a t1 => ensures (k a) t1 Q) -> ensures (bind m k) t Q.
Proof.
  unfold ensures, bind. destruct (m t) as [[a|e] t1]; [|trivial].
  now intros H.
Qed.

Lemma ensures_ret {A} (a : A) t (Q : A -> Trainer -> Prop) :
  Q a t -> ensures (ret a) t Q.
Proof. now unfold ensures. Qed.

Lemma ensures_raise {A} e t (Q : A -> Trainer -> Prop) : ensures (raise e) t Q.
Proof. now unfold ensures. Qed.

Lemma ensures_get t (Q : Trainer -> Trainer -> Prop) :
  Q t t -> ensures get t Q.
Proof. now unfold ensures. Qed.

Lemma ensures_modify g t (Q : unit -> Trainer -> Prop) :
  Q tt (g t) -> ensures (modify g) t Q.
Proof. now unfold ensures. Qed.

Lemma ensures_lift {A} (r : result A) t (Q : A -> Trainer -> Prop) :
  (forall a, r = Ok a -> Q a t) -> ensures (lift r) t Q.
Proof. unfold ensures, lift. destruct r; auto. Qed.

Lemma ensures_weaken {A} (m : M A) t (P Q : A -> Trainer -> Prop) :
  ensures m t P -> (forall a t', P a t' -> Q a t') -> ensures m t Q.
Proof.
  unfold ensures. destruct (m t) as [[a|e] t']; auto.
Qed.

Lemma ensures_preserves {A B} (f : Trainer -> A) (m : M B) t :
  preserves f m -> ensures m t (fun _ t' => f t' = f t).
Proof.
  intros H. specialize (H t). unfold ensures.
  now destruct (m t) as [[b|e] t'].
Qed.

Lemma ensures_run {A} (m : M A) t a t' (Q : A -> Trainer -> Prop) :
  ensures m t Q -> m t = (Ok a, t') -> Q a t'.
Proof. unfold ensures. intros H E. now rewrite E in H. Qed.

Lemma ensures_and {A} (m : M A) t (P Q : A -> Trainer -> Prop) :
  ensures m t P -> ensures m t Q -> ensures m t (fun a t' => P a t' /\ Q a t').
Proof. unfold ensures. destruct (m t) as [[a|e] t']; auto. Qed.

(** ** What the training methods leave alone *)

Lemma incr_batch_num_total_conf : preserves conf incr_batch_num_total.
Proof. unfold incr_batch_num_total. frame. Qed.

Lemma incr_batch_num_total_checkpointer :
  preserves checkpointer incr_batch_num_total.
Proof. unfold incr_batch_num_total. frame. Qed.

Lemma incr_batch_num_total_metric_tracker :
  preserves metric_tracker incr_batch_num_total.
Proof. unfold incr_batch_num_total. frame. Qed.

Lemma backward_step_frame {A} (f : Trainer -> A) C b :
  (forall v t, f (set_model v t) = f t) ->
  (forall v t, f (set_optimizer v t) = f t) ->
  preserves f (modify (step_on C b)).
Proof.
  intros Hm Ho. apply preserves_modify. intros t. unfold step_on.
  destruct (backward_step C (model t) (optimizer t) b).
  now rewrite Ho, Hm.
Qed.

Lemma begin_epoch_frame {A} (f : Trainer -> A) e :
  (forall v t, f (log_info v t) = f t) ->
  (forall v t, f (set_model_training v t) = f t) ->
  (forall v t, f (set_batch_num_total v t) = f t) ->
  preserves f (modify (begin_epoch e)).
Proof.
  intros Hl Hm Hb. apply preserves_modify. intros t. unfold begin_epoch.
  rewrite Hl. destruct (batch_num_total _); now rewrite ?Hb, Hm, Hl.
Qed.

#[export] Hint Resolve incr_batch_num_total_conf
  incr_batch_num_total_checkpointer incr_batch_num_total_metric_tracker : frame.

Lemma train_batches_conf C bs tl n : preserves conf (train_batches C bs tl n).
Proof.
  revert tl n. induction bs; intros tl n; simpl;
    repeat first [ solve [ auto with frame ]
                 | apply backward_step_frame; reflexivity
                 | frame_step ].
Qed.

Lemma train_batches_checkpointer C bs tl n :
  preserves checkpointer (train_batches C bs tl n).
Proof.
  revert tl n. induction bs; intros tl n; simpl;
    repeat first [ solve [ auto with frame ]
                 | apply backward_step_frame; reflexivity
                 | frame_step ].
Qed.

Lemma train_batches_metric_tracker C bs tl n :
  preserves metric_tracker (train_batches C bs tl n).
Proof.
  revert tl n. induction bs; intros tl n; simpl;
    repeat first [ solve [ auto with frame ]
                 | apply backward_step_frame; reflexivity
                 | frame_step ].
Qed.

Lemma get_metrics_conf C loss n reset :
  preserves conf (get_metrics C loss n reset).
Proof. unfold get_metrics. frame_with. Qed.

#[export] Hint Resolve train_batches_conf train_batches_checkpointer
  train_batches_metric_tracker get_metrics_conf : frame.

Lemma train_epoch_conf C e : preserves conf (train_epoch C e).
Proof.
  unfold train_epoch. apply preserves_bind;
    [apply begin_epoch_frame; reflexivity | intros; frame_with].
Qed.

Lemma train_epoch_checkpointer C e : preserves checkpointer (train_epoch C e).
Proof.
  unfold train_epoch. apply preserves_bind;
    [apply begin_epoch_frame; reflexivity | intros; frame_with].
Qed.

Lemma train_epoch_metric_tracker C e :
  preserves metric_tracker (train_epoch C e).
Proof.
  unfold train_epoch. apply preserves_bind;
    [apply begin_epoch_frame; reflexivity | intros; frame_with].
Qed.

Lemma val_batches_conf C bs vl n : preserves conf (val_batches C bs vl n).
Proof. revert vl n. induction bs; intros vl n; simpl; frame_with. Qed.

#[export] Hint Resolve val_batches_conf : frame.

Lemma val_epoch_conf C mode : preserves conf (val_epoch C mode).
Proof. unfold val_epoch. frame_with. Qed.

#[export] Hint Resolve train_epoch_conf train_epoch_checkpointer
  train_epoch_metric_tracker val_epoch_conf : frame.

Lemma validate_checkpointer C l : preserves checkpointer (validate C l).
Proof. unfold validate. frame_with. Qed.

Lemma validate_conf C l : preserves conf (validate C l).
Proof. unfold validate. frame_with. Qed.

(** ** The epoch loop and the checkpoints *)

Lemma saved_epochs_save m e ts b c :
  saved_epochs (Checkpointer_save m e ts b c)
  = prune (num_serialized_models_to_keep c) (saved_epochs c ++ [e]).
Proof.
  unfold saved_epochs, Checkpointer_save. simpl.
  destruct (num_serialized_models_to_keep c) as [k|]; simpl.
  - now rewrite <- skipn_map, map_app, !length_app, length_map.
  - now rewrite map_app.
Qed.

Lemma checkpointer_set_checkpointer c t :
  checkpointer (set_checkpointer c t) = c.
Proof. reflexivity. Qed.

(** The flag of [validate] is the tracker's verdict. *)
Lemma validate_stop C l t :
  ensures (validate C l) t (fun r t' =>
    (fst (fst r) = true -> should_stop_early (metric_tracker t') = true) /\
    (fst (fst r) = false -> val_iter (conf t) <> None ->
     should_stop_early (metric_tracker t') = false)).
Proof.
  unfold validate. apply ensures_bind, ensures_get.
  destruct (val_iter (conf t)) as [batches|].
  - apply ensures_bind.
    eapply ensures_weaken; [apply (ensures_preserves conf), val_epoch_conf|].
    intros r t1 _. cbn beta.
    apply ensures_bind.
    eapply ensures_weaken; [apply (ensures_preserves conf), get_metrics_conf|].
    intros vm t2 _. cbn beta.
    apply ensures_bind, ensures_lift. intros v _.
    apply ensures_bind, ensures_modify.
    apply ensures_bind, ensures_get.
    destruct (should_stop_early
                (metric_tracker
                   (set_metric_tracker (add_metric v (metric_tracker t2)) t2)))
      eqn:Hstop.
    + apply ensures_bind, ensures_modify, ensures_ret. cbn.
      split; [intros _; exact Hstop | discriminate].
    + apply ensures_ret. cbn. split; [discriminate | intros _ _; exact Hstop].
  - apply ensures_ret. cbn. split; [discriminate | congruence].
Qed.

(** An epoch that is carried to its end saves its checkpoint and leaves the
    tracker's verdict as it was. *)
Lemma finish_epoch_saves C ec e tm l t :
  ensures (finish_epoch C ec e tm l) t (fun _ t' =>
    saved_epochs (checkpointer t')
    = prune (num_serialized_models_to_keep (checkpointer t))
            (saved_epochs (checkpointer t) ++ [e]) /\
    should_stop_early (metric_tracker t')
    = should_stop_early (metric_tracker t)).
Proof.
  unfold finish_epoch.
  apply ensures_bind, ensures_lift. intros vm _.
  apply ensures_bind, ensures_get.
  set (Q := fun (_ : locals) (t' : Trainer) =>
     saved_epochs (checkpointer t')
     = prune (num_serialized_models_to_keep (checkpointer t))
             (saved_epochs (checkpointer t) ++ [e]) /\
     should_stop_early (metric_tracker t')
     = should_stop_early (metric_tracker t)).
  assert (Hrest : forall metrics t1,
    checkpointer t1 = checkpointer t ->
    should_stop_early (metric_tracker t1) = should_stop_early (metric_tracker t) ->
    ensures
      ((match learning_rate_scheduler t with
        | Some s =>
            m <- lift (read_local "this_epoch_val_metric"
                                  (l_this_epoch_val_metric l)) ;;
            modify (set_learning_rate_scheduler
                      (Some (scheduler_step C s m e)))
        | None => ret tt
        end) ;;;
       save_checkpoint e ;;;
       ret (mkLocals metrics (l_train_epoch l + 1)
                     (l_val_metrics l) (l_this_epoch_val_metric l)))
      t1 Q).
  { intros metrics t1 Hcp Hstop.
    apply ensures_bind.
    assert (Hsave : forall t2,
      checkpointer t2 = checkpointer t ->
      should_stop_early (metric_tracker t2)
      = should_stop_early (metric_tracker t) ->
      ensures
        (save_checkpoint e ;;;
         ret (mkLocals metrics (l_train_epoch l + 1)
                       (l_val_metrics l) (l_this_epoch_val_metric l)))
        t2 Q).
    { intros t2 Hcp2 Hstop2.
      apply ensures_bind. unfold save_checkpoint. apply ensures_modify.
      apply ensures_ret. unfold Q. split; [|exact Hstop2].
      rewrite checkpointer_set_checkpointer, saved_epochs_save.
      now rewrite Hcp2. }
    destruct (learning_rate_scheduler t).
    - apply ensures_bind, ensures_lift. intros m _.
      apply ensures_modify. now apply Hsave.
    - apply ensures_ret. now apply Hsave. }
  destruct (is_best_so_far (metric_tracker t)).
  - apply ensures_bind. apply ensures_bind, ensures_modify, ensures_ret.
    now apply Hrest.
  - apply ensures_bind, ensures_ret. now apply Hrest.
Qed.

Lemma learn_epoch_ensures C ec e l t :
  ensures (learn_epoch C ec e l) t (fun f t' =>
    match f with
    | Break _ =>
        should_stop_early (metric_tracker t') = true /\
        checkpointer t' = checkpointer t
    | Next _ =>
        saved_epochs (checkpointer t')
        = prune (num_serialized_models_to_keep (checkpointer t))
                (saved_epochs (checkpointer t) ++ [e]) /\
        (val_iter (conf t) <> None ->
         should_stop_early (metric_tracker t') = false)
    end).
Proof.
  unfold learn_epoch. apply ensures_bind.
  eapply ensures_weaken;
    [apply ensures_and;
     [apply (ensures_preserves checkpointer), train_epoch_checkpointer
     |apply (ensures_preserves conf), train_epoch_conf]|].
  intros tm t1 [Hcp1 Hconf1]. cbn beta.
  apply ensures_bind, ensures_lift. intros m1 _.
  apply ensures_bind, ensures_lift. intros m2 _.
  apply ensures_bind.
  eapply ensures_weaken;
    [apply ensures_and;
     [apply validate_stop
     |apply (ensures_preserves checkpointer), validate_checkpointer]|].
  intros [[stop vm] m] t2 [[Hstop Hgo] Hcp2]. cbn in Hstop, Hgo. cbn beta iota.
  destruct stop.
  - apply ensures_ret. split; [now apply Hstop | congruence].
  - apply ensures_bind.
    eapply ensures_weaken; [apply finish_epoch_saves|].
    intros l' t3 [Hsaved Hsame]. apply ensures_ret. split.
    + now rewrite Hsaved, Hcp2, Hcp1.
    + intros Hval. rewrite Hsame. apply Hgo; [reflexivity|].
      now rewrite Hconf1.
Qed.

(** C2, amended: a turn of the epoch loop that is carried to its end saves
    the checkpoint of its epoch, and with a validation iterator this is a
    turn on which [should_stop_early] is false; a turn on which
    [should_stop_early] is true leaves the loop with the checkpointer as it
    found it, so the epoch on which early stopping fires is trained and not
    saved. *)
Theorem learn_epoch_checkpoint
    (C : Collaborators) (epoch_counter epoch : Z) (l : locals)
    (t : Trainer) (f : flow) (t' : Trainer) :
  learn_epoch C epoch_counter epoch l t = (Ok f, t') ->
  match f with
  | Break _ =>
      should_stop_early (metric_tracker t') = true /\
      checkpointer t' = checkpointer t
  | Next _ =>
      saved_epochs (checkpointer t')
      = prune (num_serialized_models_to_keep (checkpointer t))
              (saved_epochs (checkpointer t) ++ [epoch]) /\
      (val_iter (conf t) <> None ->
       should_stop_early (metric_tracker t') = false)
  end.
Proof.
  intros Hrun.
  exact (ensures_run _ _ _ _ _ (learn_epoch_ensures C epoch_counter epoch l t) Hrun).
Qed.

Lemma learn_epoch_checkpoint_witness :
  (saved_epochs (checkpointer (snd epoch0)) = [0] /\
   should_stop_early (metric_tracker (snd epoch0)) = false) /\
  (should_stop_early (metric_tracker (snd epoch1)) = true /\
   checkpointer (snd epoch1) = checkpointer (snd epoch0)).
Proof.
  assert (H0 : learn_epoch descending 0 0 (start_locals early_trainer)
                 (begin_training early_trainer)
               = (Ok (flow_or (start_locals early_trainer) (fst epoch0)),
                  snd epoch0))
    by (vm_compute; reflexivity).
  assert (H1 : learn_epoch descending 0 1
                 (locals_of (flow_or (start_locals early_trainer) (fst epoch0)))
                 (snd epoch0)
               = (Ok (flow_or (start_locals early_trainer) (fst epoch1)),
                  snd epoch1))
    by (vm_compute; reflexivity).
  pose proof (learn_epoch_checkpoint _ _ _ _ _ _ _ H0) as P0.
  pose proof (learn_epoch_checkpoint _ _ _ _ _ _ _ H1) as P1.
  vm_compute in P0, P1. vm_compute.
  destruct P0 as [Hsaved Hgo]. destruct P1 as [Hstop Hcp].
  split; [split; [exact Hsaved | apply Hgo; discriminate]
        |split; [exact Hstop | exact Hcp]].
Defined.

(** C2 as stated fails: patience runs out on the second epoch of this run;
    the epoch was trained and validated, [learn] returns, and the only
    checkpoint on storage is that of the first epoch. *)
Lemma early_stop_epoch_is_not_saved :
  is_ok (fst (learn descending early_trainer)) = true /\
  logged (snd (learn descending early_trainer))
  = [LogBeginningTraining; LogDevice (-1);
     LogEpoch 1 3; LogTraining; LogValidating;
     LogEpoch 2 3; LogTraining; LogValidating; LogRanOutOfPatience] /\
  batch_num_total (snd (learn descending early_trainer)) = VInt 2 /\
  saved_epochs (checkpointer (snd (learn descending early_trainer))) = [0].
Proof. repeat split; vm_compute; reflexivity. Qed.

(** ** Training without a validation iterator *)

Lemma validate_without_iterator C l t :
  val_iter (conf t) = None ->
  validate C l t = (Ok (false, l_val_metrics l, l_this_epoch_val_metric l), t).
Proof. intros Hval. unfold validate, bind, get. now rewrite Hval. Qed.

(** Without a validation iterator no turn of the epoch loop reaches its end
    when [val_metrics] is still unbound: once the training pass is over, the
    read of [val_metrics] on line 172 raises. *)
Lemma learn_epoch_without_validation C ec e l t :
  val_iter (conf t) = None ->
  l_val_metrics l = None ->
  ensures (learn_epoch C ec e l) t (fun _ _ => False).
Proof.
  intros Hval Hunbound. unfold learn_epoch. apply ensures_bind.
  eapply ensures_weaken; [apply (ensures_preserves conf), train_epoch_conf|].
  intros tm t1 Hconf. cbn beta.
  apply ensures_bind, ensures_lift. intros m1 _.
  apply ensures_bind, ensures_lift. intros m2 _.
  apply ensures_bind. unfold ensures at 1.
  rewrite validate_without_iterator by now rewrite Hconf.
  cbn beta iota. apply ensures_bind.
  unfold finish_epoch. apply ensures_bind. cbn [l_val_metrics].
  rewrite Hunbound. apply ensures_lift. discriminate.
Qed.

(** C3: a trainer built without a validation iterator, for one epoch on one
    batch, trains that epoch and then fails: [learn] raises
    [UnboundLocalError] for [val_metrics] and no checkpoint is saved. *)
Theorem learn_without_validation_iterator :
  val_iter (conf fresh_trainer) = None /\
  num_epochs (conf fresh_trainer) = 1 /\
  fst (learn descending fresh_trainer)
  = Raise (UnboundLocalError "val_metrics") /\
  logged (snd (learn descending fresh_trainer))
  = [LogBeginningTraining; LogDevice (-1); LogEpoch 1 1; LogTraining] /\
  batch_num_total (snd (learn descending fresh_trainer)) = VInt 1 /\
  saved_epochs (checkpointer (snd (learn descending fresh_trainer))) = [].
Proof. repeat split; vm_compute; reflexivity. Qed.

(** ** NaN losses *)

Lemma bind_assoc {A B D} (m : M A) (k : A -> M B) (h : B -> M D) t :
  bind (bind m k) h t = bind m (fun a => bind (k a) h) t.
Proof. unfold bind. now destruct (m t) as [[a|e] t1]. Qed.

Lemma bind_ext {A B} (m : M A) (k k' : A -> M B) t :
  (forall a t1, k a t1 = k' a t1) -> bind m k t = bind m k' t.
Proof. intros H. unfold bind. destruct (m t) as [[a|e] t1]; auto. Qed.

Lemma train_batches_app C pre post :
  forall tl n t,
    train_batches C (pre ++ post) tl n t
    = bind (train_batches C pre tl n)
           (fun r => train_batches C post (fst r) (snd r)) t.
Proof.
  induction pre as [|b pre IH]; intros tl n t.
  - reflexivity.
  - cbn [app train_batches].
    rewrite bind_assoc. apply bind_ext. intros [] t0.
    rewrite bind_assoc. apply bind_ext. intros loss t1.
    rewrite bind_assoc. apply bind_ext. intros [|] t2; [reflexivity|].
    rewrite bind_assoc. apply bind_ext. intros l t3.
    rewrite bind_assoc. apply bind_ext. intros [] t4.
    apply IH.
Qed.

Lemma learn_loop_app C ec pre post :
  forall l t,
    learn_loop C ec (pre ++ post) l t
    = bind (learn_loop C ec pre l)
           (fun f => match f with
                     | Next l' => learn_loop C ec post l'
                     | Break l' => ret (Break l')
                     end) t.
Proof.
  induction pre as [|e pre IH]; intros l t.
  - reflexivity.
  - cbn [app learn_loop].
    rewrite bind_assoc. apply bind_ext. intros [l'|l'] t1;
      [apply IH|reflexivity].
Qed.

(** One turn of the batch loop of [train_epoch], once the loss is known. *)
Lemma train_batches_head C b rest tl n t t0 f t1 :
  incr_batch_num_total t = (Ok tt, t0) ->
  batch_loss C b t0 = (Ok (VFloat f), t1) ->
  train_batches C (b :: rest) tl n t
  = if isnan f then (Raise (ValueError "nan loss encountered"), t1)
    else train_batches C rest (fadd tl f) (n + 1) (step_on C b t1).
Proof.
  intros Hincr Hloss. cbn [train_batches].
  rewrite (bind_ok _ _ _ _ _ Hincr), (bind_ok _ _ _ _ _ Hloss).
  unfold bind, lift, torch_isnan, item, modify, raise.
  now destruct (isnan f).
Qed.

(** One turn of the batch loop of [val_epoch]: the loss is added as it is. *)
Lemma val_batches_head C b rest vl n t f t1 :
  batch_loss C b t = (Ok (VFloat f), t1) ->
  val_batches C (b :: rest) vl n t
  = val_batches C rest (fadd vl f) (n + 1) t1.
Proof.
  intros Hloss. cbn [val_batches]. now rewrite (bind_ok _ _ _ _ _ Hloss).
Qed.

Lemma begin_epoch_conf e t : conf (begin_epoch e t) = conf t.
Proof. unfold begin_epoch. cbn. now destruct (batch_num_total t). Qed.

(** A NaN loss in the batch loop of [train_epoch] ends the epoch there. *)
Lemma train_epoch_nan C e t pre b post tl n t2 t3 t4 :
  train_iter (conf t) = (pre ++ b :: post)%list ->
  train_batches C pre fzero 0 (begin_epoch e t) = (Ok (tl, n), t2) ->
  incr_batch_num_total t2 = (Ok tt, t3) ->
  batch_loss C b t3 = (Ok (VFloat FNaN), t4) ->
  train_epoch C e t = (Raise (ValueError "nan loss encountered"), t4).
Proof.
  intros Hiter Hpre Hincr Hloss. unfold train_epoch.
  rewrite (bind_ok _ _ t tt (begin_epoch e t)) by reflexivity.
  rewrite (bind_ok _ _ _ (begin_epoch e t) (begin_epoch e t)) by reflexivity.
  apply bind_raise. rewrite begin_epoch_conf, Hiter, train_batches_app.
  rewrite (bind_ok _ _ _ _ _ Hpre). cbn [fst snd].
  now rewrite (train_batches_head C b post tl n t2 t3 FNaN t4 Hincr Hloss).
Qed.

(** C4, amended: in the training pass a batch whose loss is NaN makes
    [train_epoch] raise [ValueError] on the spot, before the backward pass
    and the optimizer step, and the error ends [learn], whatever epoch and
    batch it comes from; a batch whose loss is not NaN is stepped on and the
    loop goes on to the next batch.  The validation and test passes do not
    look at the loss: [val_epoch] adds it to the cumulative loss as it is. *)
Theorem nan_loss_aborts_training (C : Collaborators) :
  (forall b rest tl n t t0 f t1,
     incr_batch_num_total t = (Ok tt, t0) ->
     batch_loss C b t0 = (Ok (VFloat f), t1) ->
     train_batches C (b :: rest) tl n t
     = if isnan f then (Raise (ValueError "nan loss encountered"), t1)
       else train_batches C rest (fadd tl f) (n + 1) (step_on C b t1)) /\
  (forall t ec t0 done e rest l t1 pre b post tl n t2 t3 t4,
     restore_checkpoint C t = (Ok ec, t0) ->
     range ec (num_epochs (conf t0)) = (done ++ e :: rest)%list ->
     learn_loop C ec done (start_locals t0) (begin_training t0)
     = (Ok (Next l), t1) ->
     train_iter (conf t1) = (pre ++ b :: post)%list ->
     train_batches C pre fzero 0 (begin_epoch e t1) = (Ok (tl, n), t2) ->
     incr_batch_num_total t2 = (Ok tt, t3) ->
     batch_loss C b t3 = (Ok (VFloat FNaN), t4) ->
     learn C t = (Raise (ValueError "nan loss encountered"), t4)) /\
  (forall b rest vl n t f t1,
     batch_loss C b t = (Ok (VFloat f), t1) ->
     val_batches C (b :: rest) vl n t
     = val_batches C rest (fadd vl f) (n + 1) t1).
Proof.
  split; [|split].
  - intros. now apply train_batches_head with (t0 := t0).
  - intros t ec t0 done e rest l t1 pre b post tl n t2 t3 t4
           Hrestore Hrange Hdone Hiter Hpre Hincr Hloss.
    unfold learn.
    assert (Hex : except_RuntimeError (restore_checkpoint C)
                    (PyException could_not_recover) t = (Ok ec, t0)).
    { unfold except_RuntimeError. now rewrite Hrestore. }
    rewrite (bind_ok _ _ _ _ _ Hex).
    rewrite (bind_ok _ _ t0 tt (begin_training t0))
      by reflexivity.
    rewrite (bind_ok _ _ _ (begin_training t0)
                     (begin_training t0)) by reflexivity.
    apply bind_raise.
    change (conf (begin_training t0)) with (conf t0).
    rewrite Hrange, learn_loop_app.
    change (mkLocals (initial_metrics (begin_training t0))
                     0 None None) with (start_locals t0).
    rewrite (bind_ok _ _ _ _ _ Hdone). cbn [learn_loop].
    apply bind_raise. unfold learn_epoch. apply bind_raise.
    now apply train_epoch_nan with (pre := pre) (b := b) (post := post)
                                   (tl := tl) (n := n) (t2 := t2) (t3 := t3).
  - intros. now apply val_batches_head.
Qed.

Lemma nan_loss_aborts_training_witness :
  learn diverging long_trainer
  = (Raise (ValueError "nan loss encountered"), snd long_epoch1_batch) /\
  val_batches nan_in_validation [batch3] fzero 0
              (set_model_training false short_trainer)
  = val_batches nan_in_validation [] (fadd fzero FNaN) (0 + 1)
                (snd (batch_loss nan_in_validation batch3
                                 (set_model_training false short_trainer))).
Proof.
  split.
  - apply (proj1 (proj2 (nan_loss_aborts_training diverging))
             long_trainer 0 long_trainer [0] 1 [2]
             (locals_of (flow_or (start_locals long_trainer) (fst long_epoch0)))
             (snd long_epoch0) [] batch3 [batch3] fzero 0
             long_epoch1_start (snd (incr_batch_num_total long_epoch1_start))).
    all: vm_compute; reflexivity.
  - apply (proj2 (proj2 (nan_loss_aborts_training nan_in_validation))).
    vm_compute. reflexivity.
Defined.

(** C4 as stated fails: the loss of the validation batch is NaN, [val_epoch]
    returns it as the cumulative loss, and [learn] runs to its end and saves
    the checkpoint of the epoch. *)
Lemma nan_in_validation_goes_unnoticed :
  eval_loss nan_in_validation short_trainer batch3 = Ok (VFloat FNaN) /\
  fst (val_epoch nan_in_validation "val" short_trainer) = Ok (FNaN, 1) /\
  is_ok (fst (learn nan_in_validation short_trainer)) = true /\
  logged (snd (learn nan_in_validation short_trainer))
  = [LogBeginningTraining; LogDevice (-1);
     LogEpoch 1 1; LogTraining; LogValidating] /\
  saved_epochs (checkpointer (snd (learn nan_in_validation short_trainer)))
  = [0].
Proof. repeat split; vm_compute; reflexivity. Qed.

(** * Further properties of the trainer *)

Lemma bind_ok_inv {A B} (m : M A) (k : A -> M B) t b t' :
  bind m k t = (Ok b, t') ->
  exists a t1, m t = (Ok a, t1) /\ k a t1 = (Ok b, t').
Proof.
  unfold bind. destruct (m t) as [[a|e] t1]; [|discriminate].
  intros H. now exists a, t1.
Qed.

(** ** [batch_loss] *)

Lemma batch_loss_outcome (C : Collaborators) (b : batch) (t : Trainer) :
  match batch_loss C b t with
  | (Ok _, t') =>
      exists logits mask,
        t' = set_metric
               (metric t ++
                [MetricUpdate logits (batch_label (LABEL b))
                   (if sequence_model (conf t) then Some mask else None)]) t
  | (Raise _, t') => t' = t
  end.
Proof.
  unfold batch_loss, bind, get, lift, modify, ret.
  destruct (batch_inputs (padding_idx (conf t)) (TEXT b))
    as [[[data lens] mask]|e]; [|reflexivity].
  destruct (model_call C (model t) (model_training t) data lens mask
                       (batch_label (LABEL b))) as [res|e]; [|reflexivity].
  destruct (getitem res "logits") as [logits|e]; [|reflexivity].
  destruct (loss_of_result C res logits (batch_label (LABEL b)));
    [|reflexivity].
  now exists logits, mask.
Qed.

(** X1: [batch_loss] is all or nothing on the trainer: when it raises, at the
    mask, in the model, on a missing ["logits"] or in the loss, the trainer
    is as it was; when it returns, the loss is the one computed from the
    model's result on the inputs built from the batch, and the only change
    is one more update of the metric, on the ["logits"] of that result and
    the label as it was given to the model, with the mask that was given to
    the model exactly when the trainer is a sequence model. *)
Theorem batch_loss_all_or_nothing (C : Collaborators) (b : batch) (t : Trainer) :
  match batch_loss C b t with
  | (Ok loss, t') =>
      exists data lens mask res logits,
        batch_inputs (padding_idx (conf t)) (TEXT b) = Ok (data, lens, mask) /\
        model_call C (model t) (model_training t) data lens mask
                   (batch_label (LABEL b)) = Ok res /\
        res !! "logits" = Some logits /\
        loss_of_result C res logits (batch_label (LABEL b)) = Ok loss /\
        t' = set_metric
               (metric t ++
                [MetricUpdate logits (batch_label (LABEL b))
                   (if sequence_model (conf t) then Some mask else None)]) t
  | (Raise _, t') => t' = t
  end.
Proof.
  unfold batch_loss, bind, get, lift, modify, ret.
  destruct (batch_inputs (padding_idx (conf t)) (TEXT b))
    as [[[data lens] mask]|e] eqn:Hin; [|reflexivity].
  destruct (model_call C (model t) (model_training t) data lens mask
                       (batch_label (LABEL b))) as [res|e] eqn:Hcall;
    [|reflexivity].
  unfold getitem.
  destruct (res !! "logits") as [logits|] eqn:Hlogits; [|reflexivity].
  destruct (loss_of_result C res logits (batch_label (LABEL b)))
    as [loss|e] eqn:Hloss; [|reflexivity].
  exists data, lens, mask, res, logits. now repeat split.
Qed.

(** ** [train_epoch] *)

Lemma batch_loss_batch_num_total C b :
  preserves batch_num_total (batch_loss C b).
Proof. unfold batch_loss. frame. Qed.

Lemma batch_loss_metric_length C b t loss t' :
  batch_loss C b t = (Ok loss, t') ->
  length (metric t') = S (length (metric t)).
Proof.
  intros H. pose proof (batch_loss_outcome C b t) as Hall.
  rewrite H in Hall. destruct Hall as (logits & mask & ->).
  cbn. rewrite length_app. cbn. lia.
Qed.

Lemma incr_batch_num_total_int t k :
  batch_num_total t = VInt k ->
  incr_batch_num_total t = (Ok tt, set_batch_num_total (VInt (k + 1)) t).
Proof.
  intros Hk. unfold incr_batch_num_total, bind, get, lift, modify.
  now rewrite Hk.
Qed.

Lemma train_batches_counts C it :
  forall tl n t k tl' n' t',
    batch_num_total t = VInt k ->
    model_training t = true ->
    train_batches C it tl n t = (Ok (tl', n'), t') ->
    n' = n + Z.of_nat (length it) /\
    batch_num_total t' = VInt (k + Z.of_nat (length it)) /\
    model_training t' = true /\
    length (metric t') = (length (metric t) + length it)%nat.
Proof.
  induction it as [|b it IH]; intros tl n t k tl' n' t' Hk Hmode Hrun.
  - cbn in Hrun. unfold ret in Hrun. inversion Hrun; subst.
    cbn. rewrite !Z.add_0_r. now rewrite Nat.add_0_r.
  - cbn [train_batches] in Hrun.
    rewrite (bind_ok _ _ _ _ _ (incr_batch_num_total_int t k Hk)) in Hrun.
    apply bind_ok_inv in Hrun as (loss & t1 & Hloss & Hrun).
    pose proof (batch_loss_batch_num_total C b
                  (set_batch_num_total (VInt (k + 1)) t)) as Hb.
    pose proof (batch_loss_model_training C b
                  (set_batch_num_total (VInt (k + 1)) t)) as Htr.
    pose proof (batch_loss_metric_length C b _ _ _ Hloss) as Hlen.
    rewrite Hloss in Hb, Htr. cbn in Hb, Htr, Hlen.
    apply bind_ok_inv in Hrun as (nan & t2 & Hnan & Hrun).
    unfold lift in Hnan. inversion Hnan; subst t2. clear Hnan.
    destruct nan; [discriminate|].
    apply bind_ok_inv in Hrun as (l & t3 & Hitem & Hrun).
    unfold lift in Hitem. inversion Hitem; subst t3. clear Hitem.
    apply bind_ok_inv in Hrun as ([] & t4 & Hstep & Hrun).
    unfold modify in Hstep. inversion Hstep; subst t4. clear Hstep.
    assert (Hk' : batch_num_total (step_on C b t1) = VInt (k + 1)).
    { unfold step_on. now destruct (backward_step C (model t1) (optimizer t1) b). }
    assert (Hmode' : model_training (step_on C b t1) = true).
    { unfold step_on. destruct (backward_step C (model t1) (optimizer t1) b).
      cbn. congruence. }
    assert (Hmetric : metric (step_on C b t1) = metric t1).
    { unfold step_on. now destruct (backward_step C (model t1) (optimizer t1) b). }
    destruct (IH _ _ _ _ _ _ _ Hk' Hmode' Hrun) as (Hn & Hcount & Hm & Hlen').
    cbn [length]. rewrite Nat2Z.inj_succ.
    repeat split.
    + lia.
    + rewrite Hcount. f_equal. lia.
    + exact Hm.
    + rewrite Hlen', Hmetric, Hlen. lia.
Qed.

Lemma batch_loss_logged C b : preserves logged (batch_loss C b).
Proof. unfold batch_loss. frame. Qed.

Lemma incr_batch_num_total_logged : preserves logged incr_batch_num_total.
Proof. unfold incr_batch_num_total. frame. Qed.

#[export] Hint Resolve batch_loss_logged incr_batch_num_total_logged : frame.

Lemma train_batches_logged C bs tl n : preserves logged (train_batches C bs tl n).
Proof.
  revert tl n. induction bs; intros tl n; simpl;
    repeat first [ solve [ auto with frame ]
                 | apply backward_step_frame; reflexivity
                 | frame_step ].
Qed.

(** X2: a pass of [train_epoch] that returns has counted every batch of the
    training iterator into [batch_num_total] (starting from 0 when the
    counter was [None]), has logged its two lines, leaves the model in
    training mode and the metric accumulator empty, and reports a ["loss"]
    entry. *)
Theorem train_epoch_returns
    (C : Collaborators) (e : Z) (t : Trainer) (k : Z)
    (train_metrics : gmap string pyfloat) (t' : Trainer) :
  batch_num_total t = VInt k \/ (batch_num_total t = VNone /\ k = 0) ->
  train_epoch C e t = (Ok train_metrics, t') ->
  batch_num_total t' = VInt (k + Z.of_nat (length (train_iter (conf t)))) /\
  logged t' = (logged t ++ [LogEpoch (e + 1) (num_epochs (conf t)); LogTraining])%list /\
  model_training t' = true /\
  metric t' = [] /\
  is_Some (train_metrics !! "loss").
Proof.
  intros Hstart Hrun. unfold train_epoch in Hrun.
  apply bind_ok_inv in Hrun as ([] & t1 & Hbegin & Hrun).
  unfold modify in Hbegin. inversion Hbegin; subst t1. clear Hbegin.
  apply bind_ok_inv in Hrun as (t1 & t1' & Hget & Hrun).
  unfold get in Hget. inversion Hget; subst t1 t1'. clear Hget.
  apply bind_ok_inv in Hrun as ([tl n] & t2 & Hloop & Hrun).
  rewrite begin_epoch_conf in Hloop.
  assert (Hk : batch_num_total (begin_epoch e t) = VInt k).
  { unfold begin_epoch. cbn.
    destruct Hstart as [Hk|[Hk ->]]; now rewrite Hk. }
  assert (Hmode : model_training (begin_epoch e t) = true).
  { unfold begin_epoch. cbn. now destruct (batch_num_total t). }
  assert (Hlog : logged (begin_epoch e t)
                 = (logged t ++ [LogEpoch (e + 1) (num_epochs (conf t));
                                 LogTraining])%list).
  { unfold begin_epoch. cbn. destruct (batch_num_total t); cbn;
      now rewrite <- app_assoc. }
  destruct (train_batches_counts C _ _ _ _ _ _ _ _ Hk Hmode Hloop)
    as (_ & Hcount & Hmode2 & _).
  pose proof (train_batches_logged C (train_iter (conf t)) fzero 0
                (begin_epoch e t)) as Hlog2.
  rewrite Hloop in Hlog2. cbn in Hlog2.
  unfold get_metrics, bind, get, modify, lift, ret in Hrun. cbn in Hrun.
  rewrite loss_metric_total in Hrun. inversion Hrun; subst. cbn.
  repeat split; try assumption.
  - now rewrite Hlog2.
  - rewrite lookup_insert_eq. eauto.
Qed.

Lemma train_epoch_returns_witness :
  batch_num_total (snd first_pass) = VInt 1 /\
  logged (snd first_pass) = [LogEpoch 1 1; LogTraining] /\
  model_training (snd first_pass) = true /\
  metric (snd first_pass) = [] /\
  is_Some (value_or ∅ (fst first_pass) !! "loss").
Proof.
  assert (H : train_epoch descending 0 fresh_trainer
              = (Ok (value_or ∅ (fst first_pass)), snd first_pass))
    by (vm_compute; reflexivity).
  exact (train_epoch_returns descending 0 fresh_trainer 0 _ _
           (or_introl eq_refl) H).
Defined.

(** ** [val_epoch] *)

Lemma val_batches_model_training C bs vl n :
  preserves model_training (val_batches C bs vl n).
Proof. revert vl n. induction bs; intros vl n; simpl; frame_with. Qed.

Lemma val_batches_batch_num_total C bs vl n :
  preserves batch_num_total (val_batches C bs vl n).
Proof.
  revert vl n. induction bs; intros vl n; simpl;
    repeat first [ solve [ auto with frame ]
                 | apply batch_loss_batch_num_total
                 | frame_step ].
Qed.

Lemma val_batches_logged C bs vl n : preserves logged (val_batches C bs vl n).
Proof. revert vl n. induction bs; intros vl n; simpl; frame_with. Qed.

Lemma val_batches_metric_grows C bs :
  forall vl n t, exists us, metric (snd (val_batches C bs vl n t)) = (metric t ++ us)%list.
Proof.
  induction bs as [|b bs IH]; intros vl n t.
  - exists []. cbn. now rewrite app_nil_r.
  - cbn [val_batches]. unfold bind.
    pose proof (batch_loss_outcome C b t) as Hb.
    destruct (batch_loss C b t) as [[loss|e] t1].
    + destruct Hb as (logits & mask & ->).
      set (u := MetricUpdate logits (batch_label (LABEL b))
                  (if sequence_model (conf t) then Some mask else None)).
      destruct loss;
        try (exists [u]; reflexivity).
      * destruct (IH vl n (set_metric (metric t ++ [u]) t)) as [us Hus].
        exists (u :: us). rewrite Hus. cbn. now rewrite <- app_assoc.
      * destruct (IH (fadd vl f) (n + 1) (set_metric (metric t ++ [u]) t))
          as [us Hus].
        exists (u :: us). rewrite Hus. cbn. now rewrite <- app_assoc.
    + subst t1. exists []. cbn. now rewrite app_nil_r.
Qed.

(** X3: whether it returns or raises, [val_epoch] leaves the model in
    evaluation mode, logs the one line of its mode, only adds updates to the
    metric accumulator, and touches neither [batch_num_total], nor the
    metric tracker, nor the checkpointer. *)
Theorem val_epoch_leaves (C : Collaborators) (mode : string) (t : Trainer) :
  model_training (snd (val_epoch C mode t)) = false /\
  logged (snd (val_epoch C mode t))
  = (logged t ++ [if decide (mode = "val") then LogValidating else LogTest])%list /\
  (exists us, metric (snd (val_epoch C mode t)) = (metric t ++ us)%list) /\
  batch_num_total (snd (val_epoch C mode t)) = batch_num_total t /\
  metric_tracker (snd (val_epoch C mode t)) = metric_tracker t /\
  checkpointer (snd (val_epoch C mode t)) = checkpointer t.
Proof.
  split; [|split; [|split; [|split; [|split]]]].
  - unfold val_epoch, bind, get, modify.
    destruct (decide (mode = "val")); cbn;
      match goal with
      | |- context [match ?it with Some _ => _ | None => _ end] => destruct it
      end; try reflexivity; now rewrite val_batches_model_training.
  - unfold val_epoch, bind, get, modify.
    destruct (decide (mode = "val")); cbn;
      match goal with
      | |- context [match ?it with Some _ => _ | None => _ end] => destruct it
      end; try reflexivity; now rewrite val_batches_logged.
  - unfold val_epoch, bind, get, modify.
    destruct (decide (mode = "val")); cbn;
      match goal with
      | |- context [match ?it with Some _ => _ | None => _ end] =>
          destruct it as [bs|]
      end;
      try (exists []; cbn; now rewrite app_nil_r);
      match goal with
      | |- context [val_batches C ?l ?vl ?n ?t0] =>
          destruct (val_batches_metric_grows C l vl n t0) as [us Hus];
          exists us; rewrite Hus; reflexivity
      end.
  - unfold val_epoch, bind, get, modify.
    destruct (decide (mode = "val")); cbn;
      match goal with
      | |- context [match ?it with Some _ => _ | None => _ end] => destruct it
      end; try reflexivity; now rewrite val_batches_batch_num_total.
  - apply val_epoch_metric_tracker.
  - apply val_epoch_checkpointer.
Qed.

(** ** [restore_checkpoint] *)

(** X4: [restore_checkpoint] is not all or nothing: when the stored training
    state has no ["optimizer"] entry, the weights of the snapshot are already
    loaded into the model when [KeyError] is raised, and [learn] lets that
    error through as it is, with the model overwritten. *)
Theorem restore_checkpoint_partial
    (C : Collaborators) (t : Trainer) (m : state_blob)
    (ts : gmap string pyval) :
  Checkpointer_restore (checkpointer t) = Ok (Some m, Some ts) ->
  ts <> ∅ ->
  ts !! "optimizer" = None ->
  restore_checkpoint C t = (Raise (KeyError "optimizer"), set_model m t) /\
  learn C t = (Raise (KeyError "optimizer"), set_model m t).
Proof.
  intros Hr Hne Hopt.
  assert (H : restore_checkpoint C t
              = (Raise (KeyError "optimizer"), set_model m t)).
  { rewrite restore_checkpoint_unfold, Hr. cbn [fst snd].
    unfold restore_from. destruct (decide (ts = ∅)); [contradiction|].
    unfold bind, lift, modify, getitem, rbind. now rewrite Hopt. }
  split; [exact H|].
  unfold learn. apply bind_raise. unfold except_RuntimeError. now rewrite H.
Qed.

Lemma restore_checkpoint_partial_witness :
  learn descending half_saved_trainer
  = (Raise (KeyError "optimizer"), set_model [9] half_saved_trainer).
Proof.
  refine (proj2 (restore_checkpoint_partial descending half_saved_trainer
                   [9] (<["epoch" := VInt 0]> ∅) eq_refl _ eq_refl)).
  apply insert_non_empty.
Defined.

Lemma before_dot_no_dot (s : string) :
  (forall c, In c (chars s) -> c <> "."%char) -> before_dot s = s.
Proof.
  induction s as [|c s IH]; intros Hdot; [reflexivity|].
  cbn. destruct (Ascii.eqb_spec c "."%char) as [->|_].
  - exfalso. apply (Hdot "."%char); [now left|reflexivity].
  - f_equal. apply IH. intros c' Hc'. apply Hdot. now right.
Qed.

Lemma before_dot_app (s rest : string) :
  (forall c, In c (chars s) -> c <> "."%char) ->
  before_dot (String.append s (String "."%char rest)) = s.
Proof.
  induction s as [|c s IH]; intros Hdot.
  - reflexivity.
  - change (before_dot (String c (String.append s (String "."%char rest)))
            = String c s).
    cbn [before_dot]. destruct (Ascii.eqb_spec c "."%char) as [->|_].
    + exfalso. apply (Hdot "."%char); [now left|reflexivity].
    + f_equal. apply IH. intros c' Hc'. apply Hdot. now right.
Qed.

(** X5: an epoch stored as a string is read up to its first dot: for
    ["E.rest"], and for ["E"] alone, with no dot in [E], the epoch to resume
    at is [int(E) + 1], and an error of [int] is the error of the restore. *)
Theorem epoch_to_return_of_string
    (C : Collaborators) (ts : gmap string pyval) (s rest : string) :
  (forall c, In c (chars s) -> c <> "."%char) ->
  (ts !! "epoch" = Some (VStr (String.append s (String "."%char rest))) \/
   ts !! "epoch" = Some (VStr s)) ->
  epoch_to_return C ts = rbind (py_int C s) (fun n => Ok (n + 1)).
Proof.
  intros Hdot [He|He]; unfold epoch_to_return, getitem, rbind; rewrite He.
  - now rewrite before_dot_app.
  - now rewrite before_dot_no_dot.
Qed.

Lemma epoch_to_return_of_string_witness :
  epoch_to_return descending_with_int
                  (<["epoch" := VStr "12.1572"]> ∅) = Ok 13.
Proof.
  refine (eq_trans
            (epoch_to_return_of_string descending_with_int
               (<["epoch" := VStr "12.1572"]> ∅) "12" "1572" _
               (or_introl eq_refl))
            eq_refl).
  intros c [<-|[<-|[]]]; discriminate.
Defined.

(** X6: what [save_checkpoint] writes beside the tracker does come back:
    restoring the training state of a trainer [t0] saved at epoch [E] gives
    the epoch [E + 1], the weights and the optimizer state of [t0], the
    batch counter of [t0] unless that was [None], and the scheduler state of
    [t0] when both trainers have a scheduler; the configuration, the metric
    accumulator and the checkpointer of the restoring trainer stay. *)
Theorem restore_from_saved_state
    (C : Collaborators) (t0 t : Trainer) (E : Z) :
  let r := restore_from C (Some (model t0)) (Some (stored_state E t0)) t in
  fst r = Ok (E + 1) /\
  model (snd r) = model t0 /\
  optimizer (snd r) = optimizer t0 /\
  batch_num_total (snd r)
  = match batch_num_total t0 with
    | VNone => batch_num_total t
    | v => v
    end /\
  learning_rate_scheduler (snd r)
  = match learning_rate_scheduler t, learning_rate_scheduler t0 with
    | Some _, Some s0 => Some s0
    | current, _ => current
    end /\
  conf (snd r) = conf t /\
  metric (snd r) = metric t /\
  checkpointer (snd r) = checkpointer t.
Proof.
  unfold restore_from.
  destruct (decide (stored_state E t0 = ∅)) as [Hempty|_].
  { exfalso. revert Hempty. apply insert_non_empty. }
  unfold bind, lift, modify, get, ret, getitem, rbind, restore_tracker,
    epoch_to_return.
  cbn beta iota.
  rewrite stored_state_optimizer. cbn. unfold rbind, getitem.
  rewrite stored_state_metric_tracker, stored_state_val_metric_per_epoch,
    stored_state_epoch, stored_state_batch_num_total, stored_state_scheduler.
  destruct (learning_rate_scheduler t) eqn:Hcurrent,
    (learning_rate_scheduler t0), (batch_num_total t0); cbn;
    repeat split; try reflexivity; assumption.
Qed.

(** ** [learn] *)

Lemma range_empty (a b : Z) : b <= a -> range a b = [].
Proof.
  intros H. unfold range. now replace (Z.to_nat (b - a)) with O by lia.
Qed.

(** X7: resuming a run that has no epoch left trains nothing: when the
    restored epoch counter has reached [num_epochs], and there is no test
    iterator, [learn] logs its two opening lines (the beginning of training
    and the device), runs no training or validation pass, saves no
    checkpoint, and returns the metrics carried by the tracker. *)
Theorem learn_nothing_left
    (C : Collaborators) (t : Trainer) (ec : Z) (t0 : Trainer)
    (d : string) (f : list string * list string) :
  restore_checkpoint C t = (Ok ec, t0) ->
  num_epochs (conf t0) <= ec ->
  test_iter (conf t0) = None ->
  serialization_dir (conf t0) = Some d ->
  fields (conf t0) = Some f ->
  learn C t = (Ok (initial_metrics t0), begin_training t0).
Proof.
  intros Hrestore Hdone Htest Hdir Hfields. unfold learn.
  assert (Hex : except_RuntimeError (restore_checkpoint C)
                  (PyException could_not_recover) t = (Ok ec, t0)).
  { unfold except_RuntimeError. now rewrite Hrestore. }
  rewrite (bind_ok _ _ _ _ _ Hex).
  rewrite (bind_ok _ _ t0 tt (begin_training t0)) by reflexivity.
  rewrite (bind_ok _ _ _ (begin_training t0)
                   (begin_training t0)) by reflexivity.
  change (conf (begin_training t0)) with (conf t0).
  rewrite (range_empty _ _ Hdone). cbn [learn_loop].
  unfold bind, ret, test_phase, dump_info, get. cbn.
  rewrite Htest. cbn. now rewrite Hdir, Hfields.
Qed.

Lemma learn_nothing_left_witness :
  learn descending resuming_trainer
  = (Ok (initial_metrics (snd (restore_checkpoint descending resuming_trainer))),
     begin_training
              (snd (restore_checkpoint descending resuming_trainer))).
Proof.
  apply (learn_nothing_left descending resuming_trainer 5 _ "out" ([], [])).
  all: vm_compute; try reflexivity. discriminate.
Defined.

Lemma restore_checkpoint_conf C : preserves conf (restore_checkpoint C).
Proof. unfold restore_checkpoint, restore_from. frame. Qed.

Lemma finish_epoch_conf C ec e tm l : preserves conf (finish_epoch C ec e tm l).
Proof. unfold finish_epoch, save_checkpoint. frame. Qed.

#[export] Hint Resolve validate_conf finish_epoch_conf : frame.

Lemma learn_epoch_conf C ec e l : preserves conf (learn_epoch C ec e l).
Proof. unfold learn_epoch. frame_with. Qed.

Lemma learn_loop_conf C ec es : forall l, preserves conf (learn_loop C ec es l).
Proof.
  induction es as [|e es IH]; intros l; cbn [learn_loop].
  - frame.
  - apply preserves_bind; [apply learn_epoch_conf|].
    intros [l'|l']; [apply IH|frame].
Qed.

Lemma test_phase_conf C : preserves conf (test_phase C).
Proof. unfold test_phase. frame_with. Qed.

(** X8: [learn] cannot return without a serialization directory and the
    fields: whatever the epochs do, [dump_info] joins its paths onto
    [serialization_dir] and reads the vocabularies from [fields], so with
    either of them [None] (the defaults of the constructor) [learn] ends in
    an error. *)
Theorem learn_needs_serialization_dir (C : Collaborators) (t : Trainer) :
  serialization_dir (conf t) = None \/ fields (conf t) = None ->
  is_ok (fst (learn C t)) = false.
Proof.
  intros Hmissing.
  assert (H : ensures (learn C) t (fun _ _ => False)).
  { unfold learn. apply ensures_bind.
    eapply ensures_weaken;
      [apply (ensures_preserves conf), preserves_except,
         restore_checkpoint_conf|].
    intros ec t0 Hc0. cbn beta.
    apply ensures_bind, ensures_modify. apply ensures_bind, ensures_get.
    apply ensures_bind.
    eapply ensures_weaken;
      [apply (ensures_preserves conf), learn_loop_conf|].
    intros fl t1 Hc1. cbn beta. unfold begin_training in Hc1.
    cbn [conf log_info] in Hc1.
    apply ensures_bind.
    eapply ensures_weaken;
      [apply (ensures_preserves conf), test_phase_conf|].
    intros [] t2 Hc2. cbn beta.
    apply ensures_bind. unfold dump_info. apply ensures_bind, ensures_get.
    rewrite Hc2, Hc1, Hc0.
    destruct Hmissing as [-> | ->]; [apply ensures_raise|].
    destruct (serialization_dir (conf t)); apply ensures_raise. }
  unfold ensures in H. now destruct (learn C t) as [[m|e] t'].
Qed.

Lemma learn_needs_serialization_dir_witness :
  is_ok (fst (learn descending homeless_trainer)) = false.
Proof.
  apply learn_needs_serialization_dir. left. reflexivity.
Defined.

(** ** The metrics record *)

Lemma prefix_append (p x : string) : String.prefix p (String.append p x) = true.
Proof.
  induction p as [|c p IH].
  { change (String.append "" x) with x. now destruct x. }
  change (String.append (String c p) x) with (String c (String.append p x)).
  cbn [String.prefix]. now destruct (ascii_dec c c).
Qed.

Lemma add_prefixed_lookup_other (p : string) (d : gmap string pyfloat)
    (m : gmap string pyval) (k : string) :
  String.prefix p k = false -> add_prefixed p d m !! k = m !! k.
Proof.
  intros Hk. unfold add_prefixed.
  apply (map_fold_weak_ind (fun r _ => r !! k = m !! k)); [reflexivity|].
  intros key value d' r _ IH.
  rewrite lookup_insert_ne; [exact IH|].
  intros <-. now rewrite prefix_append in Hk.
Qed.

Ltac metrics_lookup :=
  repeat first [ rewrite add_prefixed_lookup_other by reflexivity
               | rewrite lookup_insert_eq
               | rewrite lookup_insert_ne by discriminate ];
  try reflexivity.

(** X9: a turn of the epoch loop that is carried to its end records its
    epoch under ["epoch"], counts itself in [train_epoch], moves
    ["best_epoch"] to this epoch exactly when the tracker says the epoch is
    the best so far and leaves it alone otherwise, hands the validation
    metrics to the tracker in that same case, and steps the scheduler, when
    there is one, once with the validation metric of this epoch. *)
Theorem finish_epoch_records
    (C : Collaborators) (epoch_counter epoch : Z)
    (train_metrics : gmap string pyfloat) (l : locals) (t : Trainer)
    (l' : locals) (t' : Trainer) :
  finish_epoch C epoch_counter epoch train_metrics l t = (Ok l', t') ->
  l_metrics l' !! "epoch" = Some (VInt epoch) /\
  l_train_epoch l' = l_train_epoch l + 1 /\
  l_metrics l' !! "best_epoch"
  = (if is_best_so_far (metric_tracker t) then Some (VInt epoch)
     else l_metrics l !! "best_epoch") /\
  Some (best_epoch_metrics (metric_tracker t'))
  = (if is_best_so_far (metric_tracker t) then l_val_metrics l
     else Some (best_epoch_metrics (metric_tracker t))) /\
  learning_rate_scheduler t'
  = match learning_rate_scheduler t, l_this_epoch_val_metric l with
    | Some s, Some m => Some (scheduler_step C s m epoch)
    | current, _ => current
    end.
Proof.
  unfold finish_epoch. intros Hrun.
  apply bind_ok_inv in Hrun as (vm & t1 & Hvm & Hrun).
  unfold lift in Hvm. inversion Hvm as [[Hread Ht1]]. subst t1. clear Hvm.
  assert (Hsome : l_val_metrics l = Some vm).
  { destruct (l_val_metrics l); [cbn in Hread; congruence|discriminate]. }
  apply bind_ok_inv in Hrun as (t1 & t1' & Hget & Hrun).
  unfold get in Hget. inversion Hget; subst t1 t1'. clear Hget.
  apply bind_ok_inv in Hrun as (metrics & t2 & Hbest & Hrun).
  apply bind_ok_inv in Hrun as ([] & t3 & Hsched & Hrun).
  apply bind_ok_inv in Hrun as ([] & t4 & Hsave & Hrun).
  unfold ret in Hrun. inversion Hrun; subst l' t'. clear Hrun. cbn.
  unfold save_checkpoint, modify in Hsave. inversion Hsave; subst t4.
  clear Hsave. cbn.
  assert (Hsch : learning_rate_scheduler t3
                 = match learning_rate_scheduler t,
                         l_this_epoch_val_metric l with
                   | Some s, Some m => Some (scheduler_step C s m epoch)
                   | current, _ => current
                   end /\
                 metric_tracker t3 = metric_tracker t2 /\
                 (learning_rate_scheduler t2 = learning_rate_scheduler t ->
                  True)).
  { destruct (learning_rate_scheduler t) as [s|] eqn:Hs.
    - apply bind_ok_inv in Hsched as (m & t2' & Hm & Hsched).
      unfold lift in Hm. inversion Hm as [[Hread' Ht2']]. subst t2'.
      unfold modify in Hsched. inversion Hsched; subst t3.
      destruct (l_this_epoch_val_metric l); [|discriminate].
      cbn in Hread'. inversion Hread'; subst. now cbn.
    - unfold ret in Hsched. inversion Hsched; subst t3.
      destruct (is_best_so_far (metric_tracker t)).
      + apply bind_ok_inv in Hbest as ([] & t2' & Hmod & Hret).
        unfold modify in Hmod. inversion Hmod; subst t2'.
        unfold ret in Hret. inversion Hret; subst. cbn. now rewrite Hs.
      + unfold ret in Hbest. inversion Hbest; subst. now rewrite Hs. }
  destruct Hsch as (Hsch & Htr & _).
  destruct (is_best_so_far (metric_tracker t)).
  - apply bind_ok_inv in Hbest as ([] & t2' & Hmod & Hret).
    unfold modify in Hmod. inversion Hmod; subst t2'.
    unfold ret in Hret. inversion Hret; subst metrics t2. clear Hret Hmod.
    rewrite Htr. cbn. rewrite Hsome.
    repeat split; try assumption.
    + metrics_lookup.
    + metrics_lookup.
  - unfold ret in Hbest. inversion Hbest; subst metrics t2. clear Hbest.
    rewrite Htr.
    repeat split; try assumption.
    + metrics_lookup.
    + metrics_lookup.
Qed.

Lemma finish_epoch_records_witness :
  l_metrics (value_or validated_locals (fst finished_turn)) !! "epoch"
  = Some (VInt 0) /\
  l_metrics (value_or validated_locals (fst finished_turn)) !! "best_epoch"
  = Some (VInt 0) /\
  best_epoch_metrics (metric_tracker (snd finished_turn))
  = <["loss" := FNum (1 # 2)]> ∅.
Proof.
  assert (H : finish_epoch descending 0 0 (<["loss" := FNum 5]> ∅)
                validated_locals tracked_trainer
              = (Ok (value_or validated_locals (fst finished_turn)),
                 snd finished_turn))
    by (vm_compute; reflexivity).
  destruct (finish_epoch_records _ _ _ _ _ _ _ _ H)
    as (Hepoch & _ & Hbest & Hmetrics & _).
  split; [exact Hepoch|].
  split; [exact Hbest|].
  vm_compute in Hmetrics. vm_compute. congruence.
Defined.

(** ** The padding mask *)

Lemma transpose_length (rows : list (list Z)) :
  length (transpose rows) = length (hd [] rows).
Proof. unfold transpose. now rewrite length_map, length_seq. Qed.

Lemma transpose_nth_row (rows : list (list Z)) (i : nat) :
  (i < length (hd [] rows))%nat ->
  nth i (transpose rows) [] = map (fun r => nth i r 0) rows.
Proof.
  intros Hi. unfold transpose.
  rewrite (nth_indep _ [] ((fun j => map (fun r => nth j r 0) rows) O))
    by now rewrite length_map, length_seq.
  rewrite (map_nth (fun j => map (fun r => nth j r 0) rows)).
  now rewrite seq_nth.
Qed.

Lemma transpose_nth (rows : list (list Z)) (i j : nat) :
  (i < length (hd [] rows))%nat -> (j < length rows)%nat ->
  nth j (nth i (transpose rows) []) 0 = nth i (nth j rows []) 0.
Proof.
  intros Hi Hj. rewrite transpose_nth_row by exact Hi.
  rewrite (nth_indep _ 0 ((fun r => nth i r 0) []))
    by now rewrite length_map.
  now rewrite (map_nth (fun r => nth i r 0)).
Qed.

(** X10: on a batch without lengths whose text tensor does not have two
    rows, [batch_loss] hands the model the transposed tensor, no lengths,
    and a mask with one row per example whose entry for example [i] at
    position [j] is 0 exactly when the token of that example at that
    position is the padding index, and 1 otherwise. *)
Theorem padding_mask_entries (padding : Z) (rows : list (list Z)) :
  length rows <> 2%nat ->
  exists mask,
    batch_inputs padding (TextTensor (T2 rows))
    = Ok (T2 (transpose rows), None, T2 mask) /\
    length mask = length (hd [] rows) /\
    forall i j,
      (i < length (hd [] rows))%nat -> (j < length rows)%nat ->
      nth j (nth i mask []) 0
      = if nth i (nth j rows []) 0 =? padding then 0 else 1.
Proof.
  intros Hrows. exists (map (map (ne_long padding)) (transpose rows)).
  split; [|split].
  - now apply (batch_inputs_without_lengths padding (T2 rows) (length rows)).
  - now rewrite length_map, transpose_length.
  - intros i j Hi Hj.
    change [] with (map (ne_long padding) []) at 1.
    rewrite (map_nth (map (ne_long padding))).
    rewrite transpose_nth_row by exact Hi.
    rewrite map_map.
    rewrite (nth_indep _ 0 ((fun r => ne_long padding (nth i r 0)) []))
      by now rewrite length_map.
    rewrite (map_nth (fun r => ne_long padding (nth i r 0))).
    reflexivity.
Qed.

Lemma padding_mask_entries_witness :
  exists mask,
    batch_inputs 1 (TEXT batch3)
    = Ok (T2 (transpose [[5; 7; 2]; [6; 1; 3]; [2; 1; 4]]), None, T2 mask) /\
    length mask = 3%nat /\
    forall i j,
      (i < 3)%nat -> (j < 3)%nat ->
      nth j (nth i mask []) 0
      = if nth i (nth j [[5; 7; 2]; [6; 1; 3]; [2; 1; 4]] []) 0 =? 1
        then 0 else 1.
Proof.
  apply (padding_mask_entries 1 [[5; 7; 2]; [6; 1; 3]; [2; 1; 4]]).
  discriminate.
Defined.

(** ** Errors in the epoch loop *)

Lemma train_epoch_raise C e t pre b post tl n t2 t3 err t4 :
  train_iter (conf t) = (pre ++ b :: post)%list ->
  train_batches C pre fzero 0 (begin_epoch e t) = (Ok (tl, n), t2) ->
  incr_batch_num_total t2 = (Ok tt, t3) ->
  batch_loss C b t3 = (Raise err, t4) ->
  train_epoch C e t = (Raise err, t4).
Proof.
  intros Hiter Hpre Hincr Hloss. unfold train_epoch.
  rewrite (bind_ok _ _ t tt (begin_epoch e t)) by reflexivity.
  rewrite (bind_ok _ _ _ (begin_epoch e t) (begin_epoch e t)) by reflexivity.
  apply bind_raise. rewrite begin_epoch_conf, Hiter, train_batches_app.
  rewrite (bind_ok _ _ _ _ _ Hpre). cbn [fst snd train_batches].
  rewrite (bind_ok _ _ _ _ _ Hincr). now apply bind_raise.
Qed.

(** X11: [learn] has no handler around the epoch loop: an error that
    [batch_loss] raises on a training batch, in whatever epoch and at
    whatever batch, [RuntimeError] included, is the error [learn] ends with,
    unchanged, and the trainer is left as it was when that batch was
    reached, its batch counter having counted the batch. *)
Theorem training_error_ends_learn
    (C : Collaborators) (t : Trainer) (ec : Z) (t0 : Trainer)
    (done : list Z) (e : Z) (rest : list Z) (l : locals) (t1 : Trainer)
    (pre : list batch) (b : batch) (post : list batch)
    (tl : pyfloat) (n : Z) (t2 t3 : Trainer) (err : pyerr) (t4 : Trainer) :
  restore_checkpoint C t = (Ok ec, t0) ->
  range ec (num_epochs (conf t0)) = (done ++ e :: rest)%list ->
  learn_loop C ec done (start_locals t0) (begin_training t0)
  = (Ok (Next l), t1) ->
  train_iter (conf t1) = (pre ++ b :: post)%list ->
  train_batches C pre fzero 0 (begin_epoch e t1) = (Ok (tl, n), t2) ->
  incr_batch_num_total t2 = (Ok tt, t3) ->
  batch_loss C b t3 = (Raise err, t4) ->
  learn C t = (Raise err, t3).
Proof.
  intros Hrestore Hrange Hdone Hiter Hpre Hincr Hloss.
  assert (Ht4 : t4 = t3).
  { pose proof (batch_loss_outcome C b t3) as H. now rewrite Hloss in H. }
  subst t4. unfold learn.
  assert (Hex : except_RuntimeError (restore_checkpoint C)
                  (PyException could_not_recover) t = (Ok ec, t0)).
  { unfold except_RuntimeError. now rewrite Hrestore. }
  rewrite (bind_ok _ _ _ _ _ Hex).
  rewrite (bind_ok _ _ t0 tt (begin_training t0))
    by reflexivity.
  rewrite (bind_ok _ _ _ (begin_training t0)
                   (begin_training t0)) by reflexivity.
  apply bind_raise.
  change (conf (begin_training t0)) with (conf t0).
  rewrite Hrange, learn_loop_app.
  change (mkLocals (initial_metrics (begin_training t0))
                   0 None None) with (start_locals t0).
  rewrite (bind_ok _ _ _ _ _ Hdone). cbn [learn_loop].
  apply bind_raise. unfold learn_epoch. apply bind_raise.
  now apply train_epoch_raise with (pre := pre) (b := b) (post := post)
                                   (tl := tl) (n := n) (t2 := t2) (t3 := t3).
Qed.

Lemma training_error_ends_learn_witness :
  learn breaking long_trainer
  = (Raise RuntimeError, snd (incr_batch_num_total breaking_epoch1_start)).
Proof.
  apply (training_error_ends_learn breaking
           long_trainer 0 long_trainer [0] 1 [2]
           (locals_of (flow_or (start_locals long_trainer) (fst breaking_epoch0)))
           (snd breaking_epoch0) [] batch3 [batch3] fzero 0
           breaking_epoch1_start
           (snd (incr_batch_num_total breaking_epoch1_start))
           RuntimeError
           (snd (incr_batch_num_total breaking_epoch1_start))).
  all: vm_compute; reflexivity.
Defined.

(** ** The validation branch *)

Lemma val_epoch_eval_mode C mode t :
  model_training (snd (val_epoch C mode t)) = false.
Proof.
  unfold val_epoch, bind, get, modify.
  destruct (decide (mode = "val")); cbn;
    match goal with
    | |- context [match ?it with Some _ => _ | None => _ end] => destruct it
    end; try reflexivity; now rewrite val_batches_model_training.
Qed.

Lemma get_metrics_run C loss n reset t :
  get_metrics C loss n reset t
  = (Ok (<["loss" := if fgt loss fzero
                     then fquot loss (fadd (float_of_int n) (FNum eps8))
                     else fzero]> (metric_compute C (metric t))),
     if reset then set_metric [] t else t).
Proof.
  unfold get_metrics, bind, get, lift, ret, modify.
  rewrite loss_metric_total. now destruct reset.
Qed.

(** X12: a validation branch that returns has added exactly one value to the
    metric tracker, the entry of the validation metrics under the trainer's
    lookup key; its flag is the tracker's [should_stop_early] after that
    addition; and it leaves the metric accumulator empty, the model in
    evaluation mode, and the parameters and the optimizer state as they
    were. *)
Theorem validate_records
    (C : Collaborators) (l : locals) (t : Trainer) (batches : list batch)
    (stop : bool) (vm : option (gmap string pyfloat)) (m : option pyfloat)
    (t' : Trainer) :
  val_iter (conf t) = Some batches ->
  validate C l t = (Ok (stop, vm, m), t') ->
  exists metrics v,
    vm = Some metrics /\ m = Some v /\
    metrics !! validation_metric (conf t) = Some v /\
    metric_tracker t' = add_metric v (metric_tracker t) /\
    stop = should_stop_early (add_metric v (metric_tracker t)) /\
    metric t' = [] /\
    model_training t' = false /\
    model t' = model t /\
    optimizer t' = optimizer t.
Proof.
  intros Hit Hrun. unfold validate in Hrun.
  apply bind_ok_inv in Hrun as (t0 & t0' & Hget & Hrun).
  unfold get in Hget. inversion Hget; subst t0 t0'. clear Hget.
  rewrite Hit in Hrun.
  apply bind_ok_inv in Hrun as (r & t1 & Hval & Hrun).
  pose proof (val_epoch_eval_mode C "val" t) as Hmode.
  pose proof (val_epoch_metric_tracker C "val" t) as Htracker.
  pose proof (val_epoch_model C "val" t) as Hmodel.
  pose proof (val_epoch_optimizer C "val" t) as Hopt.
  rewrite Hval in Hmode, Htracker, Hmodel, Hopt.
  cbn [snd] in Hmode, Htracker, Hmodel, Hopt.
  apply bind_ok_inv in Hrun as (metrics & t2 & Hmetrics & Hrun).
  rewrite get_metrics_run in Hmetrics.
  inversion Hmetrics as [[Hm Ht2]]. clear Hmetrics.
  apply bind_ok_inv in Hrun as (v & t3 & Hlook & Hrun).
  unfold lift, getitem in Hlook.
  destruct (metrics !! validation_metric (conf t)) as [v'|] eqn:Hkey;
    [|discriminate].
  inversion Hlook; subst v' t3. clear Hlook.
  apply bind_ok_inv in Hrun as ([] & t4 & Hadd & Hrun).
  unfold modify in Hadd. inversion Hadd; subst t4. clear Hadd.
  apply bind_ok_inv in Hrun as (t5 & t5' & Hget & Hrun).
  unfold get in Hget. inversion Hget; subst t5 t5'. clear Hget.
  exists metrics, v.
  assert (Htr2 : metric_tracker t2 = metric_tracker t).
  { rewrite <- Ht2. exact Htracker. }
  cbn [metric_tracker set_metric_tracker] in Hrun. rewrite Htr2 in Hrun.
  destruct (should_stop_early (add_metric v (metric_tracker t))) eqn:Hstop.
  - apply bind_ok_inv in Hrun as ([] & t6 & Hlog & Hrun).
    unfold modify in Hlog. inversion Hlog; subst t6. clear Hlog.
    unfold ret in Hrun. inversion Hrun; subst. cbn.
    now repeat split.
  - unfold ret in Hrun. inversion Hrun; subst. cbn.
    now repeat split.
Qed.

Lemma validate_records_witness :
  exists metrics v,
    snd (fst (value_or (false, None, None) (fst first_validation)))
    = Some metrics /\
    snd (value_or (false, None, None) (fst first_validation)) = Some v /\
    metrics !! "loss" = Some v /\
    metric_tracker (snd first_validation)
    = add_metric v (metric_tracker early_trainer).
Proof.
  assert (H : validate descending (start_locals early_trainer) early_trainer
              = (Ok (false,
                     snd (fst (value_or (false, None, None)
                                        (fst first_validation))),
                     snd (value_or (false, None, None) (fst first_validation))),
                 snd first_validation))
    by (vm_compute; reflexivity).
  destruct (validate_records descending _ early_trainer [batch3] _ _ _ _
              eq_refl H)
    as (metrics & v & Hvm & Hm & Hkey & Htracker & _).
  exists metrics, v. now repeat split.
Defined.

(** ** The test pass *)

Lemma val_epoch_metric_reset C mode t r t1 tm t2 :
  val_epoch C mode t = (Ok r, t1) ->
  get_metrics C (fst r) (snd r) true t1 = (Ok tm, t2) ->
  metric t2 = [] /\ model t2 = model t /\ model_training t2 = false.
Proof.
  intros Hval Hget.
  pose proof (val_epoch_eval_mode C mode t) as Hmode.
  pose proof (val_epoch_model C mode t) as Hmodel.
  rewrite Hval in Hmode, Hmodel. cbn [snd] in Hmode, Hmodel.
  rewrite get_metrics_run in Hget. inversion Hget; subst. now cbn.
Qed.

(** X13: the test pass runs on the best weights, not on those of the last
    epoch: with a test iterator and best weights on storage, [learn] first
    loads the weights of [best.th] into the model and then runs [val_epoch]
    in test mode on the trainer so loaded, so that the loss of every test
    batch is its loss under the best weights; after the pass the metric
    accumulator is reset and the model still holds the best weights.  With
    no best weights on storage the step raises [FileNotFoundError] and
    leaves the trainer alone; without a test iterator it does nothing. *)
Theorem test_phase_best_weights (C : Collaborators) (t : Trainer) :
  (test_iter (conf t) = None -> test_phase C t = (Ok tt, t)) /\
  (forall batches d,
     test_iter (conf t) = Some batches ->
     serialization_dir (conf t) = Some d ->
     best_th (checkpointer t) = None ->
     test_phase C t = (Raise FileNotFoundError, t)) /\
  (forall batches d w,
     test_iter (conf t) = Some batches ->
     serialization_dir (conf t) = Some d ->
     best_th (checkpointer t) = Some w ->
     test_phase C t
     = match val_epoch C "test" (set_model w t) with
       | (Ok _, t1) => (Ok tt, set_metric [] t1)
       | (Raise e, t1) => (Raise e, t1)
       end /\
     model (snd (test_phase C t)) = w /\
     forall outs,
       Forall2 (fun b o => eval_loss C (set_model w t) b = Ok (loss_value o))
               batches outs ->
       fst (val_epoch C "test" (set_model w t))
       = Ok (fold_left fadd (omap id outs) fzero,
             Z.of_nat (length (omap id outs)))) /\
  (forall batches t',
     test_iter (conf t) = Some batches ->
     test_phase C t = (Ok tt, t') ->
     exists w,
       best_th (checkpointer t) = Some w /\
       model t' = w /\ model_training t' = false /\ metric t' = []).
Proof.
  split; [|split; [|split]].
  - intros Hnone. unfold test_phase, bind, get. now rewrite Hnone.
  - intros batches d Hit Hdir Hbest.
    unfold test_phase, bind, get, lift. now rewrite Hit, Hdir, Hbest.
  - intros batches d w Hit Hdir Hbest.
    assert (Heq : test_phase C t
                  = match val_epoch C "test" (set_model w t) with
                    | (Ok _, t1) => (Ok tt, set_metric [] t1)
                    | (Raise e, t1) => (Raise e, t1)
                    end).
    { unfold test_phase. unfold bind at 1. unfold get at 1.
      rewrite Hit. unfold bind at 1. unfold lift at 1. rewrite Hdir, Hbest.
      unfold bind at 1. unfold modify at 1. unfold bind at 1.
      destruct (val_epoch C "test" (set_model w t)) as [[r|e] t1];
        [|reflexivity].
      unfold bind. now rewrite get_metrics_run. }
    split; [exact Heq|]. split.
    + rewrite Heq.
      pose proof (val_epoch_model C "test" (set_model w t)) as Hmodel.
      now destruct (val_epoch C "test" (set_model w t)) as [[r|e] t1].
    + intros outs Hall.
      now apply (val_epoch_result C "test" (set_model w t) batches outs).
  - intros batches t' Hit Hrun. unfold test_phase in Hrun.
    apply bind_ok_inv in Hrun as (t0 & t0' & Hget & Hrun).
    unfold get in Hget. inversion Hget; subst t0 t0'. clear Hget.
    rewrite Hit in Hrun.
    apply bind_ok_inv in Hrun as (w & t1 & Hload & Hrun).
    unfold lift in Hload.
    destruct (serialization_dir (conf t)); [|discriminate].
    destruct (best_th (checkpointer t)) as [w'|]; [|discriminate].
    inversion Hload; subst w' t1. clear Hload.
    apply bind_ok_inv in Hrun as ([] & t2 & Hset & Hrun).
    unfold modify in Hset. inversion Hset; subst t2. clear Hset.
    apply bind_ok_inv in Hrun as (r & t3 & Hval & Hrun).
    apply bind_ok_inv in Hrun as (tm & t4 & Hget & Hrun).
    unfold ret in Hrun. inversion Hrun; subst t4. clear Hrun.
    destruct (val_epoch_metric_reset C "test" _ _ _ _ _ Hval Hget)
      as (Hmetric & Hmodel & Hmode).
    exists w. now repeat split.
Qed.

Lemma test_phase_best_weights_witness :
  model (snd (test_phase descending tested_trainer)) = [8] /\
  fst (val_epoch descending "test" (set_model [8] tested_trainer))
  = Ok (fold_left fadd [FNum 8; FNum 8] fzero, 2) /\
  exists w,
    best_th (checkpointer tested_trainer) = Some w /\
    model (snd (test_phase descending tested_trainer)) = w /\
    model_training (snd (test_phase descending tested_trainer)) = false /\
    metric (snd (test_phase descending tested_trainer)) = [].
Proof.
  destruct (test_phase_best_weights descending tested_trainer)
    as (_ & _ & Hbest & Hafter).
  destruct (Hbest [batch3; batch3] "out" [8] eq_refl eq_refl eq_refl)
    as (_ & Hmodel & Hlosses).
  split; [exact Hmodel|]. split.
  - apply (Hlosses [Some (FNum 8); Some (FNum 8)]). repeat constructor.
  - apply (Hafter [batch3; batch3]).
    + reflexivity.
    + vm_compute. reflexivity.
Defined.

(** * Properties of the text classifier *)

Lemma fold_left_add_shift (l : list Z) (a : Z) :
  fold_left Z.add l a = a + fold_left Z.add l 0.
Proof.
  revert a. induction l as [|x l IH]; intros a; cbn [fold_left].
  - lia.
  - rewrite (IH (a + x)), (IH (0 + x)). lia.
Qed.

Lemma py_sum_repeat (k : Z) (n : nat) : py_sum (repeat k n) = k * Z.of_nat n.
Proof.
  unfold py_sum. induction n as [|n IH]; [cbn; lia|].
  cbn [repeat fold_left]. rewrite fold_left_add_shift, IH. lia.
Qed.

(** X14: a [TextCnn] that is built has a linear layer as wide as the sum of
    its filter counts and as many outputs as labels; when [filter_num] is a
    single [int] there is one filter count per filter size and the width is
    that [int] times the number of filter sizes, a single filter size making
    one-element lists; when both are lists they are taken as they are,
    whatever their lengths.  A truthy ["pretrain"] option without
    ["vectors"] makes the constructor raise [KeyError]. *)
Theorem TextCnn_init_shapes
    (input_dim vocab_size : Z) (filter_size filter_num : int_or_list)
    (label_num : Z) (dropout : pyfloat) (kwargs : gmap string pyval) :
  (forall m,
     TextCnn_init input_dim vocab_size filter_size filter_num label_num
                  dropout kwargs = Ok m ->
     fc_in_features m = py_sum (encoder_filter_num m) /\
     fc_out_features m = label_num /\
     (forall n, filter_size = An_int n -> encoder_filter_size m = [n]) /\
     (forall k, filter_num = An_int k ->
        length (encoder_filter_num m) = length (encoder_filter_size m) /\
        fc_in_features m = k * Z.of_nat (length (encoder_filter_size m))) /\
     (forall sizes nums,
        filter_size = A_list sizes -> filter_num = A_list nums ->
        encoder_filter_size m = sizes /\ encoder_filter_num m = nums)) /\
  (forall flag,
     kwargs !! "pretrain" = Some flag -> py_truthy flag = true ->
     kwargs !! "vectors" = None ->
     TextCnn_init input_dim vocab_size filter_size filter_num label_num
                  dropout kwargs = Raise (KeyError "vectors")).
Proof.
  split.
  - intros m Hm. unfold TextCnn_init, rbind in Hm.
    destruct (match kwargs !! "pretrain" with
              | Some flag =>
                  if py_truthy flag
                  then match getitem kwargs "vectors" with
                       | Ok a => Ok (Some a)
                       | Raise e => Raise e
                       end
                  else Ok None
              | None => Ok None
              end) as [pre|]; [|discriminate].
    inversion Hm; subst m. clear Hm. cbn.
    repeat split.
    + intros n ->. reflexivity.
    + subst. now rewrite repeat_length.
    + subst. now rewrite py_sum_repeat.
    + subst. reflexivity.
    + subst. reflexivity.
  - intros flag Hflag Htruthy Hvectors.
    unfold TextCnn_init, rbind, getitem.
    now rewrite Hflag, Htruthy, Hvectors.
Qed.

Lemma TextCnn_init_shapes_witness :
  (forall m,
     TextCnn_init 300 5000 (A_list [3; 4; 5]) (An_int 100) 2 (FNum (1 # 2)) ∅
     = Ok m ->
     length (encoder_filter_num m) = 3%nat /\ fc_in_features m = 300) /\
  TextCnn_init 300 5000 (An_int 3) (An_int 100) 2 (FNum (1 # 2))
               (<["pretrain" := VInt 1]> ∅)
  = Raise (KeyError "vectors").
Proof.
  split.
  - intros m Hm.
    destruct (proj1 (TextCnn_init_shapes 300 5000 (A_list [3; 4; 5])
                       (An_int 100) 2 (FNum (1 # 2)) ∅) m Hm)
      as (_ & _ & _ & Hnum & _).
    destruct (Hnum 100 eq_refl) as [Hlen Hwidth].
    inversion Hm; subst m. exact (conj Hlen Hwidth).
  - apply (proj2 (TextCnn_init_shapes 300 5000 (An_int 3) (An_int 100) 2
                    (FNum (1 # 2)) (<["pretrain" := VInt 1]> ∅))
             (VInt 1)); reflexivity.
Defined.
